(** * Arbdash: prediction-market arbitrage dashboard

    A shallow embedding of the matching and evaluation core of
    [prediction_arbitrage_dashboard.py] (exact title matching, module
    [Exact]) and [prediction_arbitrage_dashboard-2.py] (embedding
    similarity matching, module [Ai]), and the properties of that core.

    Markets are untyped JSON payloads, so the embedding works on a type of
    Python values and makes every exception explicit.  Prices are binary64
    floats, modelled with the standard library's [spec_float]. *)

From Stdlib Require Import ZArith NArith Bool List String Ascii Lia.
From Stdlib Require Import Sorting.Sorted Sorting.Permutation.
From Stdlib Require Import Floats.SpecFloat.
From stdpp Require Import base option list countable gmap.
Import ListNotations.

Local Open Scope Z_scope.

#[local] Set Warnings "-register-all".

(** ** Binary64 arithmetic: Python's [float], numpy's [float64] *)

Module Float.

Definition float : Type := spec_float.

Definition prec : Z := 53.
Definition emax : Z := 1024.

Definition add : float -> float -> float := SFadd prec emax.
Definition sub : float -> float -> float := SFsub prec emax.
Definition mul : float -> float -> float := SFmul prec emax.
Definition div : float -> float -> float := SFdiv prec emax.
Definition sqrt : float -> float := SFsqrt prec emax.

(** [x < y] and [x <= y]; both are false as soon as one side is NaN. *)
Definition ltb : float -> float -> bool := SFltb.
Definition leb : float -> float -> bool := SFleb.

Definition is_nan (x : float) : bool :=
  match x with S754_nan => true | _ => false end.

Definition is_zero (x : float) : bool :=
  match x with S754_zero _ => true | _ => false end.

(** The float nearest to the integer [z] (ties to even). *)
Definition of_Z (z : Z) : float := binary_normalize prec emax z 0 false.

(** The float nearest to the fraction [n / d]: the value of a decimal
    literal such as [0.90] ([ratio 90 100]) and of [strtod]. *)
Definition ratio (n : Z) (d : positive) : float :=
  match n with
  | Z0 => S754_zero false
  | Zpos p => div (S754_finite false p 0) (S754_finite false d 0)
  | Zneg p => div (S754_finite true p 0) (S754_finite false d 0)
  end.

(** Nearest integer to [num / den] for [0 <= num], [0 < den], ties to even. *)
Definition half_even (num den : Z) : Z :=
  let q := num / den in
  match 2 * (num mod den) ?= den with
  | Lt => q
  | Gt => q + 1
  | Eq => if Z.even q then q else q + 1
  end.

(** Nearest integer to [m * 2^e * k], ties to even. *)
Definition scaled_half_even (m : positive) (e : Z) (k : positive) : Z :=
  match e with
  | Zneg s => half_even (Zpos m * Zpos k) (2 ^ Zpos s)
  | _ => Zpos m * Zpos k * 2 ^ e
  end.

(** Python's [round(x, ndigits)] on a float, [0 <= ndigits]: the exact value
    of [x] is rounded to the nearest multiple of [10^-ndigits] (ties to
    even) and the decimal result is converted back to the nearest float.
    Infinities, NaN and zeros are returned unchanged. *)
Definition py_round (x : float) (ndigits : nat) : float :=
  match x with
  | S754_finite s m e =>
      let p := Z.to_pos (10 ^ Z.of_nat ndigits) in
      match scaled_half_even m e p with
      | Zpos n => div (S754_finite s n 0) (S754_finite false p 0)
      | _ => S754_zero s
      end
  | _ => x
  end.

(** C's [rint]: the nearest integral float, ties to even. *)
Definition rint (x : float) : float :=
  match x with
  | S754_finite s m (Zneg k) =>
      match half_even (Zpos m) (2 ^ Zpos k) with
      | Zpos n => binary_round prec emax s n 0
      | _ => S754_zero s
      end
  | _ => x
  end.

(** numpy's [float64.__round__(ndigits)], [0 <= ndigits]: scale, [rint],
    scale back, all three in floating point. *)
Definition np_round (x : float) (ndigits : nat) : float :=
  let factor := of_Z (10 ^ Z.of_nat ndigits) in
  div (rint (mul x factor)) factor.

(** The largest magnitude an [int] may have to convert to a float; from
    [2^1024 - 2^970] on the nearest float would be an infinity. *)
Definition int_max : Z := 2 ^ 1024 - 2 ^ 970.

End Float.

Abbreviation float := Float.float.

(** ** Python values and exceptions *)

(** A Python [str] is a sequence of Unicode code points. *)
Definition pystr : Type := list N.

(** A literal of the source, all of which are ASCII. *)
Definition str (s : string) : pystr := map N_of_ascii (list_ascii_of_string s).

(** The values [json()] produces.  A [dict] keeps its insertion order; its
    keys are strings and the first binding of a key is the live one. *)
Inductive pyval : Type :=
| PyNone
| PyBool (b : bool)
| PyInt (z : Z)
| PyFloat (f : float)
| PyStr (s : pystr)
| PyList (l : list pyval)
| PyDict (d : list (pystr * pyval)).

Inductive exn : Type :=
| KeyError | IndexError | TypeError | AttributeError | ValueError | OverflowError.

Inductive result (A : Type) : Type :=
| Ok (a : A)
| Raise (e : exn).
Arguments Ok {A} a.
Arguments Raise {A} e.

Definition bind {A B : Type} (m : result A) (k : A -> result B) : result B :=
  match m with
  | Ok a => k a
  | Raise e => Raise e
  end.

Notation "'do' x <- m ; k" := (bind m (fun x => k))
  (at level 10, x name, m at level 100, k at level 200,
   format "'[v' 'do'  x  <-  m ; '/' k ']'").

(** [try: body / except: return handler], with the bare [except:] that
    catches every exception. *)
Definition try_except {A : Type} (body : result A) (handler : A) : result A :=
  match body with
  | Ok a => Ok a
  | Raise _ => Ok handler
  end.

(** [for x in l: ...] accumulating into a list, stopping at the first
    exception. *)
Fixpoint for_each {A B : Type} (f : A -> result (list B)) (l : list A)
  : result (list B) :=
  match l with
  | [] => Ok []
  | x :: l' => do ys <- f x; do zs <- for_each f l'; Ok (ys ++ zs)
  end.

Definition pystr_eqb (s t : pystr) : bool := bool_decide (s = t).

Fixpoint dict_get (d : list (pystr * pyval)) (key : pystr) : option pyval :=
  match d with
  | [] => None
  | (k, v) :: d' => if pystr_eqb k key then Some v else dict_get d' key
  end.

(** [v[key]] for a string key. *)
Definition getitem (v : pyval) (key : pystr) : result pyval :=
  match v with
  | PyDict d =>
      match dict_get d key with
      | Some x => Ok x
      | None => Raise KeyError
      end
  | _ => Raise TypeError
  end.

(** [v[0]]. *)
Definition getitem0 (v : pyval) : result pyval :=
  match v with
  | PyList (x :: _) => Ok x
  | PyList [] => Raise IndexError
  | PyStr (c :: _) => Ok (PyStr [c])
  | PyStr [] => Raise IndexError
  | PyDict _ => Raise KeyError
  | _ => Raise TypeError
  end.

(** [v.get(key)]: only a [dict] has the method. *)
Definition dict_get_method (v : pyval) (key : pystr) : result pyval :=
  match v with
  | PyDict d => Ok (default PyNone (dict_get d key))
  | _ => Raise AttributeError
  end.

(** [v[:n]]: defined on sequences. *)
Definition slice_prefix (v : pyval) : result unit :=
  match v with
  | PyStr _ | PyList _ => Ok tt
  | _ => Raise TypeError
  end.

(** What [for x in v] iterates over. *)
Definition iterate (v : pyval) : result (list pyval) :=
  match v with
  | PyList l => Ok l
  | PyDict d => Ok (map (fun kv => PyStr (fst kv)) d)
  | PyStr s => Ok (map (fun c => PyStr [c]) s)
  | _ => Raise TypeError
  end.

(** Truth value of [v], as [or] and [if] test it. *)
Definition truthy (v : pyval) : bool :=
  match v with
  | PyNone => false
  | PyBool b => b
  | PyInt z => negb (z =? 0)
  | PyFloat f => negb (Float.is_zero f)
  | PyStr s => negb (bool_decide (s = []))
  | PyList l => match l with [] => false | _ => true end
  | PyDict d => match d with [] => false | _ => true end
  end.

(** [a or b]. *)
Definition py_or (a b : pyval) : pyval := if truthy a then a else b.

(** Conversion of an [int] to a float, as mixed arithmetic and [float()]
    perform it. *)
Definition int_to_float (z : Z) : result float :=
  if Z.abs z <? Float.int_max then Ok (Float.of_Z z) else Raise OverflowError.

(** ** The Python runtime's tables *)

(** The Unicode database behind [str.lower] and the parser behind
    [float(str)] are the interpreter's, not the repository's. *)
Class PyRuntime : Type := {
  (** [_PyUnicode_ToLowerFull]: the lowercase mapping of one code point *)
  to_lower_full : N -> list N;
  (** [_PyUnicode_IsCased] *)
  is_cased : N -> bool;
  (** [_PyUnicode_IsCaseIgnorable] *)
  is_case_ignorable : N -> bool;
  (** [float(s)] on a string: the parsed float, [None] for [ValueError] *)
  float_of_str : pystr -> option float
}.

(** The external services of the embedding strategy. *)
Class Collaborators : Type := {
  (** [openai.Embedding.create(...)["data"][0]["embedding"]], or the
      exception the request raised *)
  openai_embedding : pyval -> result (list float);
  (** sklearn's [cosine_similarity([u], [v])[0][0]]; it is defined on all
      the vectors at hand, which have the provider's fixed dimension, that
      of the zero vector of the fallback, and finite entries *)
  cosine_similarity : list float -> list float -> float
}.

(** ** String methods *)

Definition capital_sigma : N := 0x3A3%N.
Definition final_sigma_cp : N := 0x3C2%N.
Definition small_sigma : N := 0x3C3%N.

(** [str.isspace] of one code point. *)
Definition isspace (c : N) : bool :=
  ((0x9 <=? c) && (c <=? 0xD) || (0x1C <=? c) && (c <=? 0x20)
   || (c =? 0x85) || (c =? 0xA0) || (c =? 0x1680)
   || (0x2000 <=? c) && (c <=? 0x200A)
   || (c =? 0x2028) || (c =? 0x2029) || (c =? 0x202F) || (c =? 0x205F)
   || (c =? 0x3000))%N.

Fixpoint lstrip (s : pystr) : pystr :=
  match s with
  | [] => []
  | c :: s' => if isspace c then lstrip s' else s
  end.

Definition rstrip (s : pystr) : pystr := rev (lstrip (rev s)).

(** [s.strip()] *)
Definition strip (s : pystr) : pystr := rstrip (lstrip s).

(** [s.replace(c, '')] for a one-character [c]: every [c] is removed. *)
Definition remove_char (c : N) (s : pystr) : pystr :=
  List.filter (fun x => negb (x =? c)%N) s.

Section StrLower.
Context `{PyRuntime}.

(** The first code point of [l] that is not case-ignorable. *)
Fixpoint skip_ignorable (l : list N) : option N :=
  match l with
  | [] => None
  | c :: l' => if is_case_ignorable c then skip_ignorable l' else Some c
  end.

(** The Final_Sigma context of a capital sigma, given the code points
    before it (nearest first) and after it. *)
Definition final_sigma (before after : list N) : bool :=
  match skip_ignorable before with
  | Some c =>
      is_cased c &&
      match skip_ignorable after with
      | None => true
      | Some c' => negb (is_cased c')
      end
  | None => false
  end.

Fixpoint lower_from (before s : list N) : list N :=
  match s with
  | [] => []
  | c :: rest =>
      (if (c =? capital_sigma)%N
       then [if final_sigma before rest then final_sigma_cp else small_sigma]
       else to_lower_full c)
      ++ lower_from (c :: before) rest
  end.

(** [s.lower()] *)
Definition lower (s : pystr) : pystr := lower_from [] s.

(** [v.lower()]: only a [str] has the method. *)
Definition lower_method (v : pyval) : result pystr :=
  match v with
  | PyStr s => Ok (lower s)
  | _ => Raise AttributeError
  end.

(** [float(v)] *)
Definition py_float (v : pyval) : result float :=
  match v with
  | PyFloat f => Ok f
  | PyInt z => int_to_float z
  | PyBool b => Ok (Float.of_Z (if b then 1 else 0))
  | PyStr s =>
      match float_of_str s with
      | Some f => Ok f
      | None => Raise ValueError
      end
  | _ => Raise TypeError
  end.

End StrLower.

(** ** pandas: [DataFrame.sort_values] on a float column *)

(** The order of [sort_values]: ascending, NaN last. *)
Definition total_le (a b : float) : bool :=
  Float.is_nan b || negb (Float.is_nan a) && Float.leb a b.

Fixpoint insert_by {A : Type} (key : A -> float) (r : A) (sorted : list A)
  : list A :=
  match sorted with
  | [] => [r]
  | x :: rest =>
      if total_le (key r) (key x)
      then r :: sorted
      else x :: insert_by key r rest
  end.

(** [df.sort_values(by=key)].  pandas does not fix the order of rows with
    equal keys; this model keeps them in their original order. *)
Definition sort_values_by {A : Type} (key : A -> float) (rows : list A)
  : list A :=
  fold_right (insert_by key) [] rows.

(** ** [prediction_arbitrage_dashboard.py]: exact title matching *)

Module Exact.

(** An entry of [matches]. *)
Record matched : Type := {
  name : pyval;
  kalshi : pyval;
  polymarket : pyval
}.

(** A row of the data frame. *)
Record row : Type := {
  Market : pyval;
  Kalshi_YES : float;
  Polymarket_NO : float;
  Total_Cost : float;
  Arbitrage : bool;
  Profit : option float
}.

Section Dashboard.
Context `{PyRuntime}.

(** [title.lower()], then the three [replace] calls that remove [?], [,]
    and the space, then [strip()]. *)
Definition normalize_title (title : pyval) : result pystr :=
  do s <- lower_method title;
  Ok (strip (remove_char 0x20 (remove_char 0x2C (remove_char 0x3F s)))).

(** [{normalize_title(m['title']): m for m in kalshi}], filled left to
    right into [acc]. *)
Fixpoint kalshi_lookup_from (acc : gmap pystr pyval) (kalshi : list pyval)
  : result (gmap pystr pyval) :=
  match kalshi with
  | [] => Ok acc
  | m :: rest =>
      do title <- getitem m (str "title");
      do key <- normalize_title title;
      kalshi_lookup_from (<[key := m]> acc) rest
  end.

Definition kalshi_lookup (kalshi : list pyval) : result (gmap pystr pyval) :=
  kalshi_lookup_from ∅ kalshi.

(** The body of [for pm in polymarkets]. *)
Definition match_one (lookup : gmap pystr pyval) (pm : pyval)
  : result (list matched) :=
  do title <- getitem pm (str "title");
  do norm_title <- normalize_title title;
  match lookup !! norm_title with
  | Some k =>
      do nm <- getitem pm (str "title");
      Ok [ {| name := nm; kalshi := k; polymarket := pm |} ]
  | None => Ok []
  end.

Definition match_markets (kalshi polymarkets : list pyval)
  : result (list matched) :=
  do lookup <- kalshi_lookup kalshi;
  for_each (match_one lookup) polymarkets.

(** [float(market['order_books']['yes']['bids'][0]['price'])], [None] on
    any exception. *)
Definition get_kalshi_yes_bid (market : pyval) : result (option float) :=
  try_except
    (do books <- getitem market (str "order_books");
     do yes <- getitem books (str "yes");
     do bids <- getitem yes (str "bids");
     do best <- getitem0 bids;
     do price <- getitem best (str "price");
     do f <- py_float price;
     Ok (Some f))
    None.

(** The loop [for o in outcomes]; falling off its end returns [None]. *)
Fixpoint scan_outcomes (outcomes : list pyval) : result (option float) :=
  match outcomes with
  | [] => Ok None
  | o :: rest =>
      do nm <- getitem o (str "name");
      do l <- lower_method nm;
      if pystr_eqb l (str "no")
      then do price <- getitem o (str "price");
           do f <- py_float price;
           Ok (Some f)
      else scan_outcomes rest
  end.

Definition get_polymarket_no_price (market : pyval) : result (option float) :=
  try_except
    (do outcomes <- getitem market (str "outcomes");
     do os <- iterate outcomes;
     scan_outcomes os)
    None.

(** [stake] is the integer of the sidebar's number input. *)
Definition calculate_profit (total_cost : float) (stake : Z) : result float :=
  let payout := stake in
  do s <- int_to_float stake;
  let cost := Float.mul total_cost s in
  do p <- int_to_float payout;
  let profit := Float.sub p cost in
  Ok (Float.py_round profit 2).

(** The literal [1.0]. *)
Definition one : float := Float.ratio 10 10.

(** The body of [for pair in matches]: the rows it appends, none when it
    reaches [continue]. *)
Definition evaluate (pair : matched) (stake : Z) : result (list row) :=
  do k_price <- get_kalshi_yes_bid (kalshi pair);
  do p_price <- get_polymarket_no_price (polymarket pair);
  match k_price, p_price with
  | Some k, Some p =>
      let total := Float.add k p in
      let is_arb := Float.ltb total one in
      do profit <- (if is_arb
                    then do x <- calculate_profit total stake; Ok (Some x)
                    else Ok None);
      Ok [ {| Market := name pair;
              Kalshi_YES := Float.py_round k 3;
              Polymarket_NO := Float.py_round p 3;
              Total_Cost := Float.py_round total 3;
              Arbitrage := is_arb;
              Profit := if is_arb then profit else None |} ]
  | _, _ => Ok []
  end.

Definition evaluate_all (matches : list matched) (stake : Z)
  : result (list row) :=
  for_each (fun pair => evaluate pair stake) matches.

End Dashboard.

(** [df.sort_values(by='Total Cost')] *)
Definition sort_values (rows : list row) : list row :=
  sort_values_by Total_Cost rows.

(** What one refresh cycle hands to [st.dataframe]; the empty list stands
    for the "No matched markets" message. *)
Definition displayed (rows : list row) : list row :=
  match rows with
  | [] => []
  | _ => sort_values rows
  end.

Definition refresh `{PyRuntime} (kalshi_data poly_data : list pyval)
  (stake_amount : Z) : result (list row) :=
  do matches <- match_markets kalshi_data poly_data;
  do rows <- evaluate_all matches stake_amount;
  Ok (displayed rows).

(** What the page shows at the end of a cycle: the data frame, or the
    "No matched markets or arbitrage detected." message. *)
Inductive view : Type :=
| Table (df : list row)
| No_matches.

(** [df] stays [None] when [rows] is empty, and is never empty otherwise. *)
Definition show (rows : list row) : view :=
  match rows with
  | [] => No_matches
  | _ => Table (sort_values rows)
  end.

Section Script.
Context `{PyRuntime}.

(** [requests.get(...)] followed by [r.json()] is the collaborator: the
    decoded payload, or the exception either call raised.  The fetcher
    returns [payload['markets']], and the empty list on any exception. *)
Definition fetch_kalshi_markets (response : result pyval) : result pyval :=
  try_except
    (do payload <- response;
     getitem payload (str "markets"))
    (PyList []).

Definition fetch_polymarket_markets (response : result pyval) : result pyval :=
  try_except
    (do payload <- response;
     getitem payload (str "markets"))
    (PyList []).

(** [match_markets] on the values the fetchers return: the comprehension
    iterates [kalshi], then the loop iterates [polymarkets]. *)
Definition match_markets_on (kalshi polymarkets : pyval)
  : result (list matched) :=
  do ks <- iterate kalshi;
  do lookup <- kalshi_lookup ks;
  do ps <- iterate polymarkets;
  for_each (match_one lookup) ps.

(** One turn of the [while True] loop. *)
Definition cycle (kalshi_response poly_response : result pyval)
  (stake_amount : Z) : result view :=
  do kalshi_data <- fetch_kalshi_markets kalshi_response;
  do poly_data <- fetch_polymarket_markets poly_response;
  do matches <- match_markets_on kalshi_data poly_data;
  do rows <- evaluate_all matches stake_amount;
  Ok (show rows).

End Script.

End Exact.

(** ** [prediction_arbitrage_dashboard-2.py]: embedding similarity matching *)

Module Ai.

Record matched : Type := {
  name : pyval;
  kalshi : pyval;
  polymarket : pyval;
  similarity : float
}.

Record row : Type := {
  Market : pyval;
  Similarity : float;
  Kalshi_YES : float;
  Polymarket_NO : float;
  Total_Cost : float;
  Arbitrage : bool;
  Profit : option float
}.

(** [np.zeros(1536)] *)
Definition zeros : list float := repeat (S754_zero false) 1536.

(** The literal [0.90]. *)
Definition threshold : float := Float.ratio 90 100.

(** A state-passing [for] loop: the body reads and updates a state. *)
Fixpoint for_each_st {S A B : Type} (f : A -> S -> result (list B * S))
  (l : list A) (st : S) : result (list B * S) :=
  match l with
  | [] => Ok ([], st)
  | x :: l' =>
      do r <- f x st;
      do r' <- for_each_st f l' (snd r);
      Ok (fst r ++ fst r', snd r')
  end.

Section Dashboard.
Context `{PyRuntime} `{Collaborators}.

(** The request, the [st.info] line with its [text[:40]], and the
    [except] branch that returns the zero vector. *)
Definition get_embedding (text : pyval) : result (list float) :=
  try_except
    (do response <- openai_embedding text;
     do _ <- slice_prefix text;
     Ok response)
    zeros.

(** [market.get('question') or market.get('title') or market.get('slug')
    or 'unknown'] *)
Definition extract_polymarket_title (market : pyval) : result pyval :=
  do q <- dict_get_method market (str "question");
  if truthy q then Ok q else
  do t <- dict_get_method market (str "title");
  if truthy t then Ok t else
  do s <- dict_get_method market (str "slug");
  if truthy s then Ok s else
  Ok (PyStr (str "unknown")).

(** The body of [for p in polymarkets]; the [st.text] line slices both
    titles. *)
Definition compare_one (k k_title : pyval) (k_embed : list float) (p : pyval)
  : result (list matched) :=
  do p_title <- extract_polymarket_title p;
  do p_embed <- get_embedding p_title;
  let sim := cosine_similarity k_embed p_embed in
  do _ <- slice_prefix k_title;
  do _ <- slice_prefix p_title;
  if Float.ltb threshold sim
  then Ok [ {| name := k_title; kalshi := k; polymarket := p;
               similarity := Float.np_round sim 3 |} ]
  else Ok [].

(** The body of [for k in kalshi]. *)
Definition match_kalshi (polymarkets : list pyval) (k : pyval)
  : result (list matched) :=
  do k_title <- getitem k (str "title");
  do k_embed <- get_embedding k_title;
  for_each (compare_one k k_title k_embed) polymarkets.

Definition match_markets_ai (kalshi polymarkets : list pyval)
  : result (list matched) :=
  for_each (match_kalshi polymarkets) kalshi.

(** The variant the spec describes: within one pass every title text is
    embedded once and looked up afterwards.  The cache is a dictionary from
    title text to vector; a title that is not a [str] is embedded directly. *)
Definition get_embedding_cached (text : pyval) (cache : gmap pystr (list float))
  : result (list float * gmap pystr (list float)) :=
  match text with
  | PyStr s =>
      match cache !! s with
      | Some v => Ok (v, cache)
      | None => do v <- get_embedding text; Ok (v, <[s := v]> cache)
      end
  | _ => do v <- get_embedding text; Ok (v, cache)
  end.

Definition compare_one_cached (k k_title : pyval) (k_embed : list float)
  (p : pyval) (cache : gmap pystr (list float))
  : result (list matched * gmap pystr (list float)) :=
  do p_title <- extract_polymarket_title p;
  do e <- get_embedding_cached p_title cache;
  let sim := cosine_similarity k_embed (fst e) in
  do _ <- slice_prefix k_title;
  do _ <- slice_prefix p_title;
  if Float.ltb threshold sim
  then Ok ([ {| name := k_title; kalshi := k; polymarket := p;
                similarity := Float.np_round sim 3 |} ], snd e)
  else Ok ([], snd e).

Definition match_kalshi_cached (polymarkets : list pyval) (k : pyval)
  (cache : gmap pystr (list float))
  : result (list matched * gmap pystr (list float)) :=
  do k_title <- getitem k (str "title");
  do e <- get_embedding_cached k_title cache;
  for_each_st (compare_one_cached k k_title (fst e)) polymarkets (snd e).

Definition match_markets_ai_cached (kalshi polymarkets : list pyval)
  : result (list matched) :=
  do r <- for_each_st (match_kalshi_cached polymarkets) kalshi ∅;
  Ok (fst r).

(** These three functions are the same text in both files. *)
Definition get_kalshi_yes_bid : pyval -> result (option float) :=
  Exact.get_kalshi_yes_bid.
Definition get_polymarket_no_price : pyval -> result (option float) :=
  Exact.get_polymarket_no_price.
Definition calculate_profit : float -> Z -> result float :=
  Exact.calculate_profit.

Definition evaluate (pair : matched) (stake : Z) : result (list row) :=
  do k_price <- get_kalshi_yes_bid (kalshi pair);
  do p_price <- get_polymarket_no_price (polymarket pair);
  match k_price, p_price with
  | Some k, Some p =>
      let total := Float.add k p in
      let is_arb := Float.ltb total Exact.one in
      do profit <- (if is_arb
                    then do x <- calculate_profit total stake; Ok (Some x)
                    else Ok None);
      Ok [ {| Market := name pair;
              Similarity := similarity pair;
              Kalshi_YES := Float.py_round k 3;
              Polymarket_NO := Float.py_round p 3;
              Total_Cost := Float.py_round total 3;
              Arbitrage := is_arb;
              Profit := if is_arb then profit else None |} ]
  | _, _ => Ok []
  end.

Definition evaluate_all (matches : list matched) (stake : Z)
  : result (list row) :=
  for_each (fun pair => evaluate pair stake) matches.

End Dashboard.

(** [df.sort_values(by='Total Cost')] *)
Definition sort_values (rows : list row) : list row :=
  sort_values_by Total_Cost rows.

Definition displayed (rows : list row) : list row :=
  match rows with
  | [] => []
  | _ => sort_values rows
  end.

Definition run `{PyRuntime} `{Collaborators} (kalshi_data poly_data : list pyval)
  (stake_amount : Z) : result (list row) :=
  do matches <- match_markets_ai kalshi_data poly_data;
  do rows <- evaluate_all matches stake_amount;
  Ok (displayed rows).

Inductive view : Type :=
| Table (df : list row)
| No_matches.

Definition show (rows : list row) : view :=
  match rows with
  | [] => No_matches
  | _ => Table (sort_values rows)
  end.

(** [len(v)] is defined on lists, dicts and strings. *)
Definition py_len (v : pyval) : result nat :=
  match v with
  | PyList l => Ok (length l)
  | PyDict d => Ok (length d)
  | PyStr s => Ok (length s)
  | _ => Raise TypeError
  end.

(** [v.get(key, fallback)] *)
Definition dict_get_default (v : pyval) (key : pystr) (fallback : pyval)
  : result pyval :=
  match v with
  | PyDict d => Ok (default fallback (dict_get d key))
  | _ => Raise AttributeError
  end.

Section Script.
Context `{PyRuntime} `{Collaborators}.

(** The response stands for the secret lookup, the request and
    [r.json()]: the decoded payload, or the exception one of them raised.
    The [st.write] line takes [len(markets)] inside the [try]. *)
Definition fetch_kalshi_markets (response : result pyval) : result pyval :=
  try_except
    (do payload <- response;
     do markets <- dict_get_default payload (str "markets") (PyList []);
     do _ <- py_len markets;
     Ok markets)
    (PyList []).

Definition fetch_polymarket_markets (response : result pyval) : result pyval :=
  try_except
    (do payload <- response;
     do markets <- dict_get_default payload (str "markets") (PyList []);
     do _ <- py_len markets;
     Ok markets)
    (PyList []).

(** [match_markets_ai] on the values the fetchers return: the outer loop
    iterates [kalshi], and each of its turns iterates [polymarkets]. *)
Definition match_markets_ai_on (kalshi polymarkets : pyval)
  : result (list matched) :=
  do ks <- iterate kalshi;
  for_each
    (fun k =>
       do k_title <- getitem k (str "title");
       do k_embed <- get_embedding k_title;
       do ps <- iterate polymarkets;
       for_each (compare_one k k_title k_embed) ps)
    ks.

(** The script from the fetches to the display. *)
Definition script (kalshi_response poly_response : result pyval)
  (stake_amount : Z) : result view :=
  do kalshi_data <- fetch_kalshi_markets kalshi_response;
  do poly_data <- fetch_polymarket_markets poly_response;
  do matches <- match_markets_ai_on kalshi_data poly_data;
  do rows <- evaluate_all matches stake_amount;
  Ok (show rows).

End Script.

End Ai.

(** ** A concrete runtime and concrete collaborators

    The worked examples run the dashboards on the ASCII fragment of the
    interpreter's tables and on a stub embedding provider. *)

Module Demo.

Local Open Scope string_scope.

Definition between (lo hi c : N) : bool := ((lo <=? c) && (c <=? hi))%N.

Definition ascii_lower (c : N) : list N :=
  if between 0x41 0x5A c then [(c + 32)%N] else [c].

Definition ascii_cased (c : N) : bool :=
  between 0x41 0x5A c || between 0x61 0x7A c.

Definition ascii_case_ignorable (c : N) : bool :=
  existsb (N.eqb c) [0x27; 0x2E; 0x3A; 0x5E; 0x60]%N.

(** A run of decimal digits: its value on top of [acc], its length, and
    what follows it. *)
Fixpoint read_digits (acc : Z) (count : nat) (s : pystr) : Z * nat * pystr :=
  match s with
  | [] => (acc, count, [])
  | c :: s' =>
      if between 0x30 0x39 c
      then read_digits (10 * acc + (Z.of_N c - 48)) (S count) s'
      else (acc, count, s)
  end.

Definition read_sign (s : pystr) : bool * pystr :=
  match s with
  | c :: s' =>
      if (c =? 0x2D)%N then (true, s')
      else if (c =? 0x2B)%N then (false, s')
      else (false, s)
  | [] => (false, [])
  end.

(** [float(s)] on plain decimal numerals: optional sign, digits, optional
    point and digits, surrounded by optional white space. *)
Definition parse_decimal (s : pystr) : option float :=
  let '(neg, s1) := read_sign (strip s) in
  let '(i, ni, s2) := read_digits 0 0 s1 in
  let '(n, nf, s3) :=
    match s2 with
    | c :: s' => if (c =? 0x2E)%N then read_digits i 0 s' else (i, O, s2)
    | [] => (i, O, [])
    end in
  match s3, (ni + nf)%nat with
  | [], S _ =>
      Some (match n with
            | Z0 => S754_zero neg
            | _ => Float.ratio (if neg then - n else n)
                               (Z.to_pos (10 ^ Z.of_nat nf))
            end)
  | _, _ => None
  end.

Definition runtime : PyRuntime := {|
  to_lower_full := ascii_lower;
  is_cased := ascii_cased;
  is_case_ignorable := ascii_case_ignorable;
  float_of_str := parse_decimal
|}.

(** sklearn's cosine similarity: both vectors are scaled to unit length (a
    zero norm counts as 1) and multiplied. *)
Definition dot (u v : list float) : float :=
  fold_left Float.add (zip_with Float.mul u v) (S754_zero false).

Definition l2_norm (u : list float) : float :=
  let n := Float.sqrt (dot u u) in
  if Float.is_zero n then Float.of_Z 1 else n.

Definition unit_vector (u : list float) : list float :=
  let norm := l2_norm u in
  map (fun x => Float.div x norm) u.

Definition cosine (u v : list float) : float :=
  dot (unit_vector u) (unit_vector v).

(** A vector of the provider's 1536 dimensions with the given leading
    coordinates. *)
Definition vec (leading : list float) : list float :=
  leading ++ repeat (S754_zero false) (1536 - length leading).

Definition fed_kalshi : pystr := str "Will the Fed cut rates in June?".
Definition fed_poly : pystr := str "Fed rate cut by June".

(** A provider that places two texts about 25.8 degrees apart and every
    other text at a right angle to both. *)
Definition stub_embedding (text : pyval) : result (list float) :=
  match text with
  | PyStr s =>
      if pystr_eqb s fed_kalshi then Ok (vec [Float.of_Z 1])
      else if pystr_eqb s fed_poly
           then Ok (vec [Float.ratio 9001 10000; Float.ratio 4357 10000])
           else Ok (vec [S754_zero false; S754_zero false; Float.of_Z 1])
  | _ => Raise TypeError
  end.

Definition collaborators : Collaborators := {|
  openai_embedding := stub_embedding;
  cosine_similarity := cosine
|}.

Definition market (fields : list (string * pyval)) : pyval :=
  PyDict (map (fun kv => (str (fst kv), snd kv)) fields).

Definition text (s : string) : pyval := PyStr (str s).

(** A source-A market with a title and one YES bid. *)
Definition kalshi_market (title : string) (yes_bid : float) : pyval :=
  market [("title", text title);
          ("order_books",
           market [("yes",
                    market [("bids",
                             PyList [market [("price", PyFloat yes_bid)]])])])].

(** A source-B market whose title sits under [field], with a No outcome. *)
Definition poly_market (field title : string) (no_price : float) : pyval :=
  market [(field, text title);
          ("outcomes",
           PyList [market [("name", text "Yes");
                           ("price", PyFloat (Float.sub (Float.of_Z 1) no_price))];
                   market [("name", text "No"); ("price", PyFloat no_price)]])].

Definition rain_a : pyval :=
  kalshi_market "Will it rain tomorrow?" (Float.ratio 3 10).
Definition rain_b : pyval :=
  poly_market "title" "Will it rain tomorrow" (Float.ratio 6 10).
Definition rain_b' : pyval :=
  poly_market "title" "will it rain, tomorrow?" (Float.ratio 65 100).
Definition rain_question : pyval :=
  poly_market "question" "Will it rain tomorrow" (Float.ratio 6 10).
Definition untitled_a : pyval := market [("ticker", text "RAIN-24")].

(** A source-B market that lists a Yes outcome only. *)
Definition yes_outcome : pyval :=
  market [("name", text "Yes"); ("price", PyFloat (Float.ratio 4 10))].
Definition yes_only : pyval :=
  market [("title", text "Will it rain tomorrow");
          ("outcomes", PyList [yes_outcome])].

Definition fed_a : pyval := kalshi_market "Will the Fed cut rates in June?" (Float.ratio 40 100).
Definition fed_b : pyval := poly_market "question" "Fed rate cut by June" (Float.ratio 55 100).

(** A matched pair with prices 0.40 and 0.55. *)
Definition fed_pair : Exact.matched :=
  {| Exact.name := text "Fed rate cut by June";
     Exact.kalshi := fed_a;
     Exact.polymarket := fed_b |}.

(** The fields of a source-B record without a title: no question, no
    title, an empty slug. *)
Definition untitled_fields : list (pystr * pyval) :=
  [(str "slug", PyStr []); (str "outcomes", PyList [])].

(** A source-A market whose title is a list: the stub provider rejects
    it, the slices accept it. *)
Definition listed_a : pyval :=
  market [("title", PyList [text "Will it rain tomorrow?"])].

(** A source-B market with a nameless entry before its No outcome. *)
Definition nameless_first : pyval :=
  market [("title", text "Will it rain tomorrow");
          ("outcomes",
           PyList [market [("price", PyFloat (Float.ratio 4 10))];
                   market [("name", text "No");
                           ("price", PyFloat (Float.ratio 6 10))]])].

(** A source-A market with an empty list of bids. *)
Definition no_bids_a : pyval :=
  market [("title", text "Will it rain tomorrow?");
          ("order_books", market [("yes", market [("bids", PyList [])])])].

(** Payloads of the two sources. *)
Definition payload (markets : pyval) : pyval := market [("markets", markets)].

(** A matched pair whose source-A side has no bid. *)
Definition no_bids_pair : Exact.matched :=
  {| Exact.name := text "Will it rain tomorrow";
     Exact.kalshi := no_bids_a;
     Exact.polymarket := rain_b |}.

End Demo.

(** ** Definitions used in the statements and proofs *)

(** The position of a float in the order of [sort_values]: sign class,
    then exponent, then mantissa; NaN after everything else. *)
Definition rank (x : float) : Z * Z * Z :=
  match x with
  | S754_infinity true => (-2, 0, 0)
  | S754_finite true m e => (-1, - e, - Zpos m)
  | S754_zero _ => (0, 0, 0)
  | S754_finite false m e => (1, e, Zpos m)
  | S754_infinity false => (2, 0, 0)
  | S754_nan => (3, 0, 0)
  end.

Definition lex_le (a b : Z * Z * Z) : Prop :=
  let '(c1, e1, m1) := a in
  let '(c2, e2, m2) := b in
  c1 < c2 \/ (c1 = c2 /\ (e1 < e2 \/ (e1 = e2 /\ m1 <= m2))).

(** A code point that [str.lower] leaves alone wherever it stands. *)
Definition lower_fixed `{PyRuntime} (d : N) : Prop :=
  d <> capital_sigma /\ to_lower_full d = [d].

(** The lowercase mapping produces only code points it leaves alone, as
    the Unicode character database does. *)
Definition lowercase_stable `{PyRuntime} : Prop :=
  (forall c d, c <> capital_sigma -> In d (to_lower_full c) -> lower_fixed d)
  /\ lower_fixed final_sigma_cp /\ lower_fixed small_sigma.

(** Nothing left for [strip] to remove at either end. *)
Definition stripped (s : pystr) : Prop :=
  lstrip s = s /\ lstrip (rev s) = rev s.

(** [o['name'].lower()] of an entry of the outcome list. *)
Definition outcome_name `{PyRuntime} (o : pyval) : result pystr :=
  do nm <- getitem o (str "name");
  lower_method nm.

(** The entry has a name that lowercases to [no]. *)
Definition named_no `{PyRuntime} (o : pyval) : bool :=
  match outcome_name o with
  | Ok l => pystr_eqb l (str "no")
  | Raise _ => false
  end.

(** The entry has a name, and it lowercases to something else. *)
Definition named_other `{PyRuntime} (o : pyval) : bool :=
  match outcome_name o with
  | Ok l => negb (pystr_eqb l (str "no"))
  | Raise _ => false
  end.

(** The integers the sidebar's [number_input] can return: at least its
    [min_value=1], at most the largest integer the widget accepts. *)
Definition stake_range (stake : Z) : Prop := 1 <= stake <= 2 ^ 53 - 1.

(** [normalize_title(m['title'])], the matching key of a market. *)
Definition title_key `{PyRuntime} (m : pyval) : result pystr :=
  do title <- getitem m (str "title");
  Exact.normalize_title title.

(** The market has a [title] and it is a string. *)
Definition has_str_title (m : pyval) : bool :=
  match getitem m (str "title") with
  | Ok (PyStr _) => true
  | _ => false
  end.

(** Following the spec's words, the mapping of the exact matcher: the
    source-A market a normalized title maps to is the last one of the list
    with that normalized title. *)
Fixpoint last_with_key `{PyRuntime} (key : pystr) (kalshi : list pyval)
  : option pyval :=
  match kalshi with
  | [] => None
  | m :: rest =>
      match last_with_key key rest with
      | Some k => Some k
      | None =>
          match title_key m with
          | Ok k => if pystr_eqb k key then Some m else None
          | Raise _ => None
          end
      end
  end.

(** Following the spec's words, the exact matcher: each source-B market,
    in order, gives a pair exactly when its normalized title is in the
    mapping. *)
Definition match_markets_spec `{PyRuntime} (kalshi polymarkets : list pyval)
  : list Exact.matched :=
  List.flat_map
    (fun pm =>
       match getitem pm (str "title"), title_key pm with
       | Ok title, Ok key =>
           match last_with_key key kalshi with
           | Some k =>
               [ {| Exact.name := title; Exact.kalshi := k;
                    Exact.polymarket := pm |} ]
           | None => []
           end
       | _, _ => []
       end)
    polymarkets.

(** No market of one list is a market of the other. *)
Definition disjoint_markets (kalshi polymarkets : list pyval) : Prop :=
  forall m, In m kalshi -> In m polymarkets -> False.

(** The cosine similarity the embedding matcher computes for one
    combination of a source-A and a source-B market. *)
Definition pair_similarity `{PyRuntime} `{Collaborators} (k p : pyval)
  : result float :=
  do k_title <- getitem k (str "title");
  do k_embed <- Ai.get_embedding k_title;
  do p_title <- Ai.extract_polymarket_title p;
  do p_embed <- Ai.get_embedding p_title;
  Ok (cosine_similarity k_embed p_embed).

(** The value of a title field of a source-B record, [None] when absent. *)
Definition field (d : list (pystr * pyval)) (key : string) : pyval :=
  default PyNone (dict_get d (str key)).

(** None of [question], [title], [slug] holds a truthy value. *)
Definition untitled (d : list (pystr * pyval)) : bool :=
  negb (truthy (field d "question")) && negb (truthy (field d "title"))
  && negb (truthy (field d "slug")).

(** A source-B record whose title fields are absent, null or strings. *)
Definition text_titles (p : pyval) : bool :=
  match p with
  | PyDict d =>
      forallb (fun key => match field d key with
                          | PyNone | PyStr _ => true
                          | _ => false
                          end)
        ["question"; "title"; "slug"]%string
  | _ => false
  end.

(** Every entry of the embedding cache is what the provider returns. *)
Definition cache_ok `{PyRuntime} `{Collaborators}
  (cache : gmap pystr (list float)) : Prop :=
  forall s v, cache !! s = Some v -> Ai.get_embedding (PyStr s) = Ok v.

(** A state-passing computation does what a plain one does, and keeps the
    invariant [I] of its state. *)
Definition refines {S B : Type} (I : S -> Prop) (plain : result B)
  (stateful : result (B * S)) : Prop :=
  match plain with
  | Ok b => exists st, stateful = Ok (b, st) /\ I st
  | Raise e => stateful = Raise e
  end.

(** The value can be sliced: a string or a list. *)
Definition sized_seq (v : pyval) : bool :=
  match v with
  | PyStr _ | PyList _ => true
  | _ => false
  end.

(** The value has a length: a list, a dict or a string. *)
Definition sized (v : pyval) : bool :=
  match v with
  | PyList _ | PyDict _ | PyStr _ => true
  | _ => false
  end.

(** The market has a [title], of any value. *)
Definition has_title (m : pyval) : bool :=
  match getitem m (str "title") with
  | Ok _ => true
  | Raise _ => false
  end.

(** The title of the source-A market [k] and the title chosen for the
    source-B market [p] can both be sliced for the comparison line. *)
Definition comparable `{PyRuntime} `{Collaborators} (k p : pyval) : bool :=
  match getitem k (str "title"), Ai.extract_polymarket_title p with
  | Ok k_title, Ok p_title => sized_seq k_title && sized_seq p_title
  | _, _ => false
  end.

(** What the embedding matcher emits for one combination. *)
Definition emitted `{PyRuntime} `{Collaborators} (k p : pyval)
  : list Ai.matched :=
  match getitem k (str "title"), pair_similarity k p with
  | Ok k_title, Ok sim =>
      if Float.ltb Ai.threshold sim
      then [ {| Ai.name := k_title; Ai.kalshi := k; Ai.polymarket := p;
                Ai.similarity := Float.np_round sim 3 |} ]
      else []
  | _, _ => []
  end.

(** The entry of the outcome list has no name that can be lowercased. *)
Definition malformed `{PyRuntime} (o : pyval) : bool :=
  match outcome_name o with
  | Ok _ => false
  | Raise _ => true
  end.

(** The entry has no price that converts to a float. *)
Definition unpriced `{PyRuntime} (o : pyval) : bool :=
  match (do price <- getitem o (str "price"); py_float price) with
  | Ok _ => false
  | Raise _ => true
  end.

(** A zero of either sign, or NaN. *)
Definition zero_or_nan (x : float) : bool := Float.is_zero x || Float.is_nan x.

(** Ascending by key, NaN keys last. *)
Definition ascending {A : Type} (key : A -> float) (rows : list A) : Prop :=
  StronglySorted (fun a b => total_le (key a) (key b) = true) rows.

(** Case analysis on the first call of a sequence of calls. *)
Ltac step_bind :=
  match goal with
  | |- context [bind ?m _] =>
      let E := fresh "E" in destruct m eqn:E; simpl
  | H : context [bind ?m _] |- _ =>
      let E := fresh "E" in destruct m eqn:E; simpl in H
  end.

(** ** Floats: the order used for sorting *)

Section FloatOrder.

Lemma total_le_rank (a b : float) :
  total_le a b = true <-> lex_le (rank a) (rank b).
Proof.
  unfold total_le, Float.leb, SFleb, SFcompare, lex_le, rank.
  destruct a as [[]|[]| |[] m1 e1], b as [[]|[]| |[] m2 e2]; simpl;
    try (split; [intros _; lia | reflexivity]);
    try (split; [discriminate | lia]).
  - change (PosDef.Pos.compare_cont Eq m1 m2) with (Pos.compare m1 m2).
    destruct (Z.compare_spec e1 e2); simpl.
    + destruct (Pos.compare_spec m1 m2); simpl; split; intros; try lia;
        try reflexivity; try discriminate.
    + split; [discriminate | lia].
    + split; [intros _; lia | reflexivity].
  - change (PosDef.Pos.compare_cont Eq m1 m2) with (Pos.compare m1 m2).
    destruct (Z.compare_spec e1 e2); simpl.
    + destruct (Pos.compare_spec m1 m2); simpl; split; intros; try lia;
        try reflexivity; try discriminate.
    + split; [intros _; lia | reflexivity].
    + split; [discriminate | lia].
Qed.

Lemma total_le_total (a b : float) :
  total_le a b = true \/ total_le b a = true.
Proof.
  rewrite !total_le_rank. unfold lex_le.
  destruct (rank a) as [[c1 e1] m1], (rank b) as [[c2 e2] m2]. lia.
Qed.

Lemma total_le_trans (a b c : float) :
  total_le a b = true -> total_le b c = true -> total_le a c = true.
Proof.
  rewrite !total_le_rank. unfold lex_le.
  destruct (rank a) as [[c1 e1] m1], (rank b) as [[c2 e2] m2],
    (rank c) as [[c3 e3] m3]. lia.
Qed.

(** A later element of an ascending list is never strictly smaller. *)
Lemma total_le_not_gt (a b : float) :
  total_le a b = true -> Float.ltb b a = false.
Proof.
  intros Hab. destruct (Float.ltb b a) eqn:Hlt; [|reflexivity].
  assert (Hba : total_le b a = true).
  { unfold total_le, Float.leb, SFleb. unfold Float.ltb, SFltb in Hlt.
    destruct (SFcompare b a) as [[]|] eqn:Hc; try discriminate.
    destruct a, b; simpl in *; try discriminate; reflexivity. }
  assert (Hne : rank a <> rank b \/ Float.ltb b a = false).
  { unfold Float.ltb, SFltb, SFcompare in *.
    destruct a as [[]|[]| |[] m1 e1], b as [[]|[]| |[] m2 e2]; simpl in *;
      try discriminate; try (left; congruence); try (right; reflexivity).
    - destruct (Z.compare_spec e2 e1); [|left; intros [= ? ?]; lia..].
      subst. change (PosDef.Pos.compare_cont Eq m2 m1) with (Pos.compare m2 m1) in *.
      destruct (Pos.compare_spec m2 m1); try discriminate.
      left. intros [= ?]. lia.
    - destruct (Z.compare_spec e2 e1); [|left; intros [= ? ?]; lia..].
      subst. change (PosDef.Pos.compare_cont Eq m2 m1) with (Pos.compare m2 m1) in *.
      destruct (Pos.compare_spec m2 m1); try discriminate.
      left. intros [= ?]. lia. }
  destruct Hne as [Hne|Hne]; [|congruence].
  apply total_le_rank in Hab, Hba. unfold lex_le in *.
  destruct (rank a) as [[c1 e1] m1], (rank b) as [[c2 e2] m2].
  exfalso. apply Hne. f_equal; [f_equal|]; lia.
Qed.

End FloatOrder.

(** ** Sorting *)

Section Sorting.
Context {A : Type} (key : A -> float).

Lemma insert_by_perm (r : A) (l : list A) :
  Permutation (r :: l) (insert_by key r l).
Proof.
  induction l as [|x l IH]; simpl; [reflexivity|].
  destruct (total_le (key r) (key x)); [reflexivity|].
  rewrite perm_swap. now apply perm_skip.
Qed.

Lemma sort_values_by_perm (l : list A) :
  Permutation l (sort_values_by key l).
Proof.
  induction l as [|x l IH]; simpl; [constructor|].
  etransitivity; [apply perm_skip, IH|]. apply insert_by_perm.
Qed.

Lemma insert_by_ascending (r : A) (l : list A) :
  ascending key l -> ascending key (insert_by key r l).
Proof.
  unfold ascending. induction 1 as [|x l Hl IH Hx]; simpl.
  - repeat constructor.
  - destruct (total_le (key r) (key x)) eqn:Hrx.
    + constructor; [now constructor|]. constructor; [exact Hrx|].
      eapply Forall_impl; [exact Hx|]. simpl. intros y Hy.
      eapply total_le_trans; eassumption.
    + constructor; [exact IH|].
      rewrite <- (insert_by_perm r l). constructor; [|exact Hx].
      destruct (total_le_total (key r) (key x)); congruence.
Qed.

Lemma sort_values_by_ascending (l : list A) :
  ascending key (sort_values_by key l).
Proof.
  induction l as [|x l IH]; simpl; [constructor|].
  now apply insert_by_ascending.
Qed.

End Sorting.

(** ** Strings *)

Section Strings.
Context `{PyRuntime}.

Lemma lstrip_suffix (s : pystr) : exists pre, s = pre ++ lstrip s.
Proof.
  induction s as [|c s [pre IH]]; simpl.
  - now exists [].
  - destruct (isspace c).
    + exists (c :: pre). simpl. now f_equal.
    + now exists [].
Qed.

Lemma lstrip_head (s : pystr) :
  lstrip s = [] \/ exists c t, lstrip s = c :: t /\ isspace c = false.
Proof.
  induction s as [|c s IH]; simpl; [now left|].
  destruct (isspace c) eqn:Hc; [exact IH|]. right. now exists c, s.
Qed.

Lemma lstrip_fixed (s : pystr) :
  s = [] \/ (exists c t, s = c :: t /\ isspace c = false) -> lstrip s = s.
Proof.
  intros [->|(c & t & -> & Hc)]; simpl; [reflexivity|]. now rewrite Hc.
Qed.

Lemma lstrip_idem (s : pystr) : lstrip (lstrip s) = lstrip s.
Proof. apply lstrip_fixed, lstrip_head. Qed.

Lemma strip_stripped (s : pystr) : stripped (strip s).
Proof.
  unfold stripped, strip, rstrip. rewrite rev_involutive, lstrip_idem.
  split; [|reflexivity].
  apply lstrip_fixed.
  destruct (lstrip_suffix (rev (lstrip s))) as [pre Hpre].
  destruct (rev (lstrip (rev (lstrip s)))) as [|c t] eqn:Hz; [now left|].
  right. exists c, t. split; [reflexivity|].
  apply (f_equal (@rev N)) in Hpre.
  rewrite rev_involutive, rev_app_distr, Hz in Hpre. simpl in Hpre.
  destruct (lstrip_head s) as [Hnil|(c' & t' & Hs & Hc')].
  - rewrite Hnil in Hpre. discriminate.
  - rewrite Hs in Hpre. now injection Hpre as -> _.
Qed.

Lemma stripped_strip (s : pystr) : stripped s -> strip s = s.
Proof.
  intros [Hl Hr]. unfold strip, rstrip. rewrite Hl, Hr. apply rev_involutive.
Qed.

Lemma lstrip_Forall (P : N -> Prop) (s : pystr) :
  List.Forall P s -> List.Forall P (lstrip s).
Proof.
  induction 1 as [|c s Hc Hs IH]; simpl; [constructor|].
  destruct (isspace c); [exact IH|now constructor].
Qed.

Lemma strip_Forall (P : N -> Prop) (s : pystr) :
  List.Forall P s -> List.Forall P (strip s).
Proof.
  intros Hs. unfold strip, rstrip.
  apply List.Forall_rev, lstrip_Forall, List.Forall_rev, lstrip_Forall, Hs.
Qed.

Lemma remove_char_Forall (P : N -> Prop) (c : N) (s : pystr) :
  List.Forall P s -> List.Forall P (remove_char c s).
Proof.
  induction 1 as [|x s Hx Hs IH]; simpl; [constructor|].
  destruct (negb (x =? c)%N); [now constructor|exact IH].
Qed.

Lemma remove_char_absent (c : N) (s : pystr) :
  List.Forall (fun x => x <> c) (remove_char c s).
Proof.
  induction s as [|x s IH]; simpl; [constructor|].
  destruct (N.eqb_spec x c); simpl; [exact IH|now constructor].
Qed.

Lemma remove_char_id (c : N) (s : pystr) :
  List.Forall (fun x => x <> c) s -> remove_char c s = s.
Proof.
  induction 1 as [|x s Hx Hs IH]; simpl; [reflexivity|].
  destruct (N.eqb_spec x c); simpl; [contradiction|now f_equal].
Qed.

Lemma lower_from_fixed (before s : list N) :
  lowercase_stable -> List.Forall lower_fixed (lower_from before s).
Proof.
  intros (Htab & Hfin & Hsmall). revert before.
  induction s as [|c s IH]; intros before; simpl; [constructor|].
  apply List.Forall_app. split; [|apply IH].
  destruct (N.eqb_spec c capital_sigma) as [->|Hc].
  - constructor; [|constructor]. now destruct (final_sigma before s).
  - apply List.Forall_forall. intros d Hd. now apply (Htab c).
Qed.

Lemma lower_from_id (before s : list N) :
  List.Forall lower_fixed s -> lower_from before s = s.
Proof.
  intros Hs. revert before.
  induction Hs as [|c s [Hc Hlow] Hs IH]; intros before; simpl; [reflexivity|].
  destruct (N.eqb_spec c capital_sigma); [contradiction|].
  rewrite Hlow, IH. reflexivity.
Qed.

(** The shape of a normalized title. *)
Lemma normalize_title_str (t : pystr) :
  Exact.normalize_title (PyStr t)
  = Ok (strip (remove_char 0x20 (remove_char 0x2C (remove_char 0x3F (lower t))))).
Proof. reflexivity. Qed.

Lemma normalize_title_fixpoint (s : pystr) :
  List.Forall lower_fixed s ->
  List.Forall (fun x => x <> 0x3F%N) s ->
  List.Forall (fun x => x <> 0x2C%N) s ->
  List.Forall (fun x => x <> 0x20%N) s ->
  stripped s ->
  Exact.normalize_title (PyStr s) = Ok s.
Proof.
  intros Hlow Hq Hc Hsp Hst. rewrite normalize_title_str. unfold lower.
  rewrite (lower_from_id [] s Hlow).
  rewrite (remove_char_id _ s Hq), (remove_char_id _ s Hc), (remove_char_id _ s Hsp).
  now rewrite stripped_strip.
Qed.

(** C7: under the lowercase tables of the Unicode database, normalizing a
    title string a second time changes nothing; the normal form is the
    lowercased title without [?], [,] and spaces, trimmed. *)
Theorem normalize_title_idempotent (t : pystr) :
  lowercase_stable ->
  exists s,
    Exact.normalize_title (PyStr t) = Ok s
    /\ s = strip (remove_char 0x20 (remove_char 0x2C (remove_char 0x3F (lower t))))
    /\ Exact.normalize_title (PyStr s) = Ok s.
Proof.
  intros Hstable. eexists. split; [apply normalize_title_str|].
  split; [reflexivity|].
  apply normalize_title_fixpoint.
  - apply strip_Forall. do 3 apply remove_char_Forall.
    now apply lower_from_fixed.
  - apply strip_Forall. do 2 apply remove_char_Forall. apply remove_char_absent.
  - apply strip_Forall, remove_char_Forall, remove_char_absent.
  - apply strip_Forall, remove_char_absent.
  - apply strip_stripped.
Qed.

End Strings.

(** ** Price extraction *)

Section Extractors.
Context `{PyRuntime}.

Lemma try_except_returns {A : Type} (body : result A) (handler : A) :
  exists r, try_except body handler = Ok r.
Proof. destruct body; simpl; eauto. Qed.

Lemma try_except_some {A : Type} (body : result (option A)) (x : A) :
  try_except body None = Ok (Some x) <-> body = Ok (Some x).
Proof. destruct body; simpl; split; congruence. Qed.

Lemma scan_outcomes_some (os : list pyval) (f : float) :
  Exact.scan_outcomes os = Ok (Some f) <->
  exists before o after price,
    os = before ++ o :: after
    /\ forallb named_other before = true
    /\ named_no o = true
    /\ getitem o (str "price") = Ok price
    /\ py_float price = Ok f.
Proof.
  induction os as [|o os IH]; simpl.
  - split; [discriminate|]. intros (before & ? & ? & ? & Hos & _).
    destruct before; discriminate.
  - unfold named_no, named_other, outcome_name in *.
    destruct (getitem o (str "name")) as [nm|] eqn:Hnm; simpl.
    2:{ split; [discriminate|].
        intros ([|b before] & o' & after & price & Hos & Hb & Ho & _);
          simpl in Hos; injection Hos as <- _; simpl in *;
          rewrite Hnm in *; simpl in *; discriminate. }
    destruct (lower_method nm) as [l|] eqn:Hl; simpl.
    2:{ split; [discriminate|].
        intros ([|b before] & o' & after & price & Hos & Hb & Ho & _);
          simpl in Hos; injection Hos as <- _; simpl in *;
          rewrite Hnm in *; simpl in *; rewrite Hl in *; discriminate. }
    destruct (pystr_eqb l (str "no")) eqn:Hno.
    + split.
      * intros Hf. exists [], o, os.
        destruct (getitem o (str "price")) as [price|] eqn:Hp; [|discriminate].
        exists price. simpl in Hf.
        destruct (py_float price) as [g|] eqn:Hg; [|discriminate].
        simpl in Hf. injection Hf as ->.
        rewrite Hnm. simpl. rewrite Hl, Hno. auto.
      * intros ([|b before] & o' & after & price & Hos & Hb & Ho & Hp & Hf);
          simpl in Hos; injection Hos as <- ->.
        -- rewrite Hp. simpl. rewrite Hf. reflexivity.
        -- simpl in Hb. rewrite Hnm in Hb. simpl in Hb.
           rewrite Hl, Hno in Hb. discriminate.
    + rewrite IH. split.
      * intros (before & o' & after & price & -> & Hb & Ho & Hp & Hf).
        exists (o :: before), o', after, price. simpl.
        rewrite Hnm. simpl. rewrite Hl, Hno. simpl. auto.
      * intros ([|b before] & o' & after & price & Hos & Hb & Ho & Hp & Hf);
          simpl in Hos; injection Hos as <- ->.
        -- rewrite Hnm in Ho. simpl in Ho. rewrite Hl, Hno in Ho. discriminate.
        -- simpl in Hb. apply andb_true_iff in Hb as [_ Hb].
           exists before, o', after, price. auto.
Qed.

Lemma scan_outcomes_none (os : list pyval) :
  forallb (fun o => negb (named_no o)) os = true ->
  try_except (Exact.scan_outcomes os) None = Ok None.
Proof.
  induction os as [|o os IH]; simpl; [reflexivity|].
  unfold named_no, outcome_name.
  destruct (getitem o (str "name")) as [nm|]; simpl; [|reflexivity].
  destruct (lower_method nm) as [l|]; simpl; [|reflexivity].
  destruct (pystr_eqb l (str "no")); simpl; [discriminate|exact IH].
Qed.

Lemma price_extractors_total_aux (market : pyval) :
  (exists r, Exact.get_kalshi_yes_bid market = Ok r)
  /\ (exists r, Exact.get_polymarket_no_price market = Ok r).
Proof. split; apply try_except_returns. Qed.

(** C8: neither price extractor ever raises.  The YES-bid extractor
    returns a price exactly when the path
    [order_books] / [yes] / [bids] / first entry / [price] exists and
    converts to a float, and [None] otherwise.  The NO-price extractor
    returns a price exactly when the first entry of [outcomes] that is not
    a well-formed outcome of another name is named "no" (in any case) and
    has a price that converts to a float; it returns [None] when no entry
    is named "no". *)
Theorem price_extractors_total (market : pyval) :
  (exists r, Exact.get_kalshi_yes_bid market = Ok r)
  /\ (forall f,
        Exact.get_kalshi_yes_bid market = Ok (Some f) <->
        exists books yes bids best price,
          getitem market (str "order_books") = Ok books
          /\ getitem books (str "yes") = Ok yes
          /\ getitem yes (str "bids") = Ok bids
          /\ getitem0 bids = Ok best
          /\ getitem best (str "price") = Ok price
          /\ py_float price = Ok f)
  /\ (exists r, Exact.get_polymarket_no_price market = Ok r)
  /\ (forall f,
        Exact.get_polymarket_no_price market = Ok (Some f) <->
        exists outcomes before o after price,
          getitem market (str "outcomes") = Ok outcomes
          /\ iterate outcomes = Ok (before ++ o :: after)
          /\ forallb named_other before = true
          /\ named_no o = true
          /\ getitem o (str "price") = Ok price
          /\ py_float price = Ok f)
  /\ (forall outcomes os,
        getitem market (str "outcomes") = Ok outcomes ->
        iterate outcomes = Ok os ->
        forallb (fun o => negb (named_no o)) os = true ->
        Exact.get_polymarket_no_price market = Ok None).
Proof.
  repeat split.
  - apply try_except_returns.
  - unfold Exact.get_kalshi_yes_bid. rewrite try_except_some.
    intros Hf. repeat step_bind; try discriminate.
    injection Hf as ->. do 5 eexists. repeat split; eauto.
  - intros (books & yes & bids & best & price & H1 & H2 & H3 & H4 & H5 & H6).
    unfold Exact.get_kalshi_yes_bid.
    rewrite H1; simpl. rewrite H2; simpl. rewrite H3; simpl.
    rewrite H4; simpl. rewrite H5; simpl. rewrite H6. reflexivity.
  - apply try_except_returns.
  - unfold Exact.get_polymarket_no_price. rewrite try_except_some.
    intros Hf. repeat step_bind; try discriminate.
    apply scan_outcomes_some in Hf
      as (before & o & after & price & -> & Hb & Ho & Hp & Hg).
    do 5 eexists. repeat split; eauto.
  - intros (outcomes & before & o & after & price & H1 & H2 & Hb & Ho & Hp & Hg).
    unfold Exact.get_polymarket_no_price.
    rewrite H1; simpl. rewrite H2; simpl.
    apply try_except_some, scan_outcomes_some.
    do 4 eexists. repeat split; eauto.
  - intros outcomes os H1 H2 Hall. unfold Exact.get_polymarket_no_price.
    rewrite H1; simpl. rewrite H2; simpl. now apply scan_outcomes_none.
Qed.

End Extractors.

(** ** Evaluation of a matched pair *)

Section Evaluation.
Context `{PyRuntime}.

Lemma int_to_float_stake (stake : Z) :
  stake_range stake -> int_to_float stake = Ok (Float.of_Z stake).
Proof.
  intros [Hlo Hhi]. unfold int_to_float.
  destruct (Z.ltb_spec (Z.abs stake) Float.int_max) as [_|Hge]; [reflexivity|].
  assert (Hbig : 2 ^ 53 < Float.int_max) by (now vm_compute).
  lia.
Qed.

Lemma calculate_profit_stake (total : float) (stake : Z) :
  stake_range stake ->
  Exact.calculate_profit total stake
  = Ok (Float.py_round
          (Float.sub (Float.of_Z stake) (Float.mul total (Float.of_Z stake))) 2).
Proof.
  intros Hs. unfold Exact.calculate_profit.
  rewrite (int_to_float_stake stake Hs). reflexivity.
Qed.

Lemma evaluate_skip (pair : Exact.matched) (stake : Z) (pa pb : option float) :
  Exact.get_kalshi_yes_bid (Exact.kalshi pair) = Ok pa ->
  Exact.get_polymarket_no_price (Exact.polymarket pair) = Ok pb ->
  pa = None \/ pb = None ->
  Exact.evaluate pair stake = Ok [].
Proof.
  intros Ha Hb Hnone. unfold Exact.evaluate. rewrite Ha, Hb. simpl.
  destruct Hnone as [->| ->]; [reflexivity|]. now destruct pa.
Qed.

Lemma evaluate_row (pair : Exact.matched) (stake : Z) (a b : float) :
  stake_range stake ->
  Exact.get_kalshi_yes_bid (Exact.kalshi pair) = Ok (Some a) ->
  Exact.get_polymarket_no_price (Exact.polymarket pair) = Ok (Some b) ->
  Exact.evaluate pair stake
  = Ok [ {| Exact.Market := Exact.name pair;
            Exact.Kalshi_YES := Float.py_round a 3;
            Exact.Polymarket_NO := Float.py_round b 3;
            Exact.Total_Cost := Float.py_round (Float.add a b) 3;
            Exact.Arbitrage := Float.ltb (Float.add a b) Exact.one;
            Exact.Profit :=
              if Float.ltb (Float.add a b) Exact.one
              then Some (Float.py_round
                           (Float.sub (Float.of_Z stake)
                              (Float.mul (Float.add a b) (Float.of_Z stake))) 2)
              else None |} ].
Proof.
  intros Hs Ha Hb. unfold Exact.evaluate. rewrite Ha, Hb. simpl.
  destruct (Float.ltb (Float.add a b) Exact.one); simpl; [|reflexivity].
  rewrite (calculate_profit_stake _ _ Hs). reflexivity.
Qed.

(** C1: for a stake the sidebar can return, a pair with a missing price
    yields no row; a pair with prices [a] and [b] yields one row whose total
    is [a + b] (shown to 3 decimals), whose arbitrage flag is [a + b < 1.0]
    and whose profit is [round(stake - (a + b) * stake, 2)] when the flag is
    set and absent otherwise.  With prices 0.40 and 0.55 and stake 100 the
    row shows total 0.95, the flag set, and profit 5.00. *)
Theorem evaluate_correct (pair : Exact.matched) (stake : Z) :
  stake_range stake ->
  exists pa pb,
    Exact.get_kalshi_yes_bid (Exact.kalshi pair) = Ok pa
    /\ Exact.get_polymarket_no_price (Exact.polymarket pair) = Ok pb
    /\ match pa, pb with
       | Some a, Some b =>
           let total := Float.add a b in
           let is_arb := Float.ltb total Exact.one in
           exists r,
             Exact.evaluate pair stake = Ok [r]
             /\ Exact.Market r = Exact.name pair
             /\ Exact.Total_Cost r = Float.py_round total 3
             /\ Exact.Arbitrage r = is_arb
             /\ Exact.Profit r
                = if is_arb
                  then Some (Float.py_round
                               (Float.sub (Float.of_Z stake)
                                  (Float.mul total (Float.of_Z stake))) 2)
                  else None
       | _, _ => Exact.evaluate pair stake = Ok []
       end
    /\ (pa = Some (Float.ratio 40 100) ->
        pb = Some (Float.ratio 55 100) ->
        stake = 100 ->
        exists r,
          Exact.evaluate pair stake = Ok [r]
          /\ Exact.Total_Cost r = Float.ratio 95 100
          /\ Exact.Arbitrage r = true
          /\ Exact.Profit r = Some (Float.ratio 500 100)).
Proof.
  intros Hs.
  destruct (proj1 (price_extractors_total_aux (Exact.kalshi pair))) as [pa Ha].
  destruct (proj2 (price_extractors_total_aux (Exact.polymarket pair)))
    as [pb Hb].
  exists pa, pb. split; [exact Ha|]. split; [exact Hb|]. split.
  - destruct pa as [a|], pb as [b|];
      try (eapply evaluate_skip; eauto; fail).
    cbv zeta. eexists. split; [exact (evaluate_row pair stake a b Hs Ha Hb)|].
    repeat split; reflexivity.
  - intros -> -> ->. eexists.
    split; [exact (evaluate_row pair 100 _ _ Hs Ha Hb)|].
    repeat split; now vm_compute.
Qed.

End Evaluation.

(** ** Loops *)

Section Loops.
Context {A B : Type} (f : A -> result (list B)).

Lemma for_each_cons_ok (x : A) (l : list A) (zs : list B) :
  for_each f (x :: l) = Ok zs ->
  exists ys ws, f x = Ok ys /\ for_each f l = Ok ws /\ zs = ys ++ ws.
Proof.
  simpl. destruct (f x) as [ys|]; simpl; [|discriminate].
  destruct (for_each f l) as [ws|]; simpl; [|discriminate].
  intros [= <-]. eauto.
Qed.

Lemma for_each_returns (l : list A) :
  (forall x, In x l -> exists ys, f x = Ok ys) ->
  exists zs, for_each f l = Ok zs.
Proof.
  induction l as [|x l IH]; intros Hf; simpl; [eauto|].
  destruct (Hf x) as [ys ->]; [now left|]. simpl.
  destruct IH as [ws ->]; [intros; apply Hf; now right|]. simpl. eauto.
Qed.

Lemma for_each_length (l : list A) (zs : list B) :
  (forall x ys, f x = Ok ys -> (length ys <= 1)%nat) ->
  for_each f l = Ok zs -> (length zs <= length l)%nat.
Proof.
  intros Hf. revert zs. induction l as [|x l IH]; intros zs Hzs.
  - injection Hzs as <-. simpl. lia.
  - apply for_each_cons_ok in Hzs as (ys & ws & Hx & Hl & ->).
    rewrite length_app. simpl. specialize (Hf x ys Hx).
    specialize (IH ws Hl). lia.
Qed.

Lemma for_each_Forall (P : B -> Prop) (l : list A) (zs : list B) :
  (forall x ys, In x l -> f x = Ok ys -> List.Forall P ys) ->
  for_each f l = Ok zs -> List.Forall P zs.
Proof.
  revert zs. induction l as [|x l IH]; intros zs Hf Hzs.
  - injection Hzs as <-. constructor.
  - apply for_each_cons_ok in Hzs as (ys & ws & Hx & Hl & ->).
    apply List.Forall_app. split.
    + apply (Hf x); [now left|exact Hx].
    + apply IH; [|exact Hl]. intros y us Hy. apply Hf. now right.
Qed.

Lemma for_each_flat_map (g : A -> list B) (l : list A) (zs : list B) :
  (forall x ys, f x = Ok ys -> ys = g x) ->
  for_each f l = Ok zs -> zs = List.flat_map g l.
Proof.
  intros Hf. revert zs. induction l as [|x l IH]; intros zs Hzs.
  - now injection Hzs as <-.
  - apply for_each_cons_ok in Hzs as (ys & ws & Hx & Hl & ->).
    simpl. now rewrite (Hf x ys Hx), (IH ws Hl).
Qed.

End Loops.

(** ** The exact matcher *)

Section ExactMatcher.
Context `{PyRuntime}.

Lemma pystr_eqb_eq (s t : pystr) : pystr_eqb s t = true <-> s = t.
Proof. unfold pystr_eqb. apply bool_decide_eq_true. Qed.

Lemma has_str_title_key (m : pyval) :
  has_str_title m = true -> exists key, title_key m = Ok key.
Proof.
  unfold has_str_title, title_key.
  destruct (getitem m (str "title")) as [[]|]; try discriminate.
  intros _. simpl. eauto.
Qed.

Lemma kalshi_lookup_from_spec (kalshi : list pyval)
  (acc lookup : gmap pystr pyval) (key : pystr) :
  Exact.kalshi_lookup_from acc kalshi = Ok lookup ->
  lookup !! key
  = match last_with_key key kalshi with
    | Some m => Some m
    | None => acc !! key
    end.
Proof.
  revert acc. induction kalshi as [|m rest IH]; intros acc Hl; simpl in *.
  - now injection Hl as <-.
  - unfold title_key.
    destruct (getitem m (str "title")) as [title|]; simpl in *; [|discriminate].
    destruct (Exact.normalize_title title) as [k|]; simpl in *; [|discriminate].
    rewrite (IH _ Hl). destruct (last_with_key key rest); [reflexivity|].
    destruct (pystr_eqb k key) eqn:Hk.
    + apply pystr_eqb_eq in Hk as ->. apply lookup_insert_eq.
    + apply lookup_insert_ne. intros ->.
      assert (pystr_eqb key key = true) by now apply pystr_eqb_eq.
      congruence.
Qed.

Lemma kalshi_lookup_spec (kalshi : list pyval) (lookup : gmap pystr pyval)
  (key : pystr) :
  Exact.kalshi_lookup kalshi = Ok lookup ->
  lookup !! key = last_with_key key kalshi.
Proof.
  intros Hl. rewrite (kalshi_lookup_from_spec _ _ _ key Hl).
  destruct (last_with_key key kalshi); [reflexivity|apply lookup_empty].
Qed.

Lemma kalshi_lookup_from_returns (kalshi : list pyval) (acc : gmap pystr pyval) :
  forallb has_str_title kalshi = true ->
  exists lookup, Exact.kalshi_lookup_from acc kalshi = Ok lookup.
Proof.
  revert acc. induction kalshi as [|m rest IH]; intros acc Hwf; simpl in *.
  - eauto.
  - apply andb_true_iff in Hwf as [Hm Hrest].
    destruct (has_str_title_key m Hm) as [key Hkey]. unfold title_key in Hkey.
    destruct (getitem m (str "title")) as [title|]; simpl in *; [|discriminate].
    rewrite Hkey. simpl. now apply IH.
Qed.

Lemma last_with_key_title (key : pystr) (kalshi : list pyval) (k : pyval) :
  last_with_key key kalshi = Some k -> In k kalshi /\ title_key k = Ok key.
Proof.
  induction kalshi as [|m rest IH]; simpl; [discriminate|].
  destruct (last_with_key key rest) as [k'|].
  - intros [= ->]. destruct IH as [Hin Hk]; [reflexivity|]. auto.
  - destruct (title_key m) as [km|] eqn:Hm; [|discriminate].
    destruct (pystr_eqb km key) eqn:Hk; [|discriminate].
    intros [= <-]. apply pystr_eqb_eq in Hk as <-. auto.
Qed.

Lemma match_one_spec (kalshi : list pyval) (lookup : gmap pystr pyval)
  (pm : pyval) (ys : list Exact.matched) :
  Exact.kalshi_lookup kalshi = Ok lookup ->
  Exact.match_one lookup pm = Ok ys ->
  ys = match getitem pm (str "title"), title_key pm with
       | Ok title, Ok key =>
           match last_with_key key kalshi with
           | Some k =>
               [ {| Exact.name := title; Exact.kalshi := k;
                    Exact.polymarket := pm |} ]
           | None => []
           end
       | _, _ => []
       end.
Proof.
  intros Hl. unfold Exact.match_one, title_key.
  destruct (getitem pm (str "title")) as [title|]; simpl; [|discriminate].
  destruct (Exact.normalize_title title) as [key|]; simpl; [|discriminate].
  rewrite (kalshi_lookup_spec _ _ key Hl).
  destruct (last_with_key key kalshi); intros [= <-]; reflexivity.
Qed.

Lemma match_markets_ok (kalshi polymarkets : list pyval)
  (ms : list Exact.matched) :
  Exact.match_markets kalshi polymarkets = Ok ms ->
  exists lookup,
    Exact.kalshi_lookup kalshi = Ok lookup
    /\ for_each (Exact.match_one lookup) polymarkets = Ok ms.
Proof.
  unfold Exact.match_markets.
  destruct (Exact.kalshi_lookup kalshi) as [lookup|]; simpl; [|discriminate].
  eauto.
Qed.

Lemma match_markets_returns (kalshi polymarkets : list pyval) :
  forallb has_str_title kalshi = true ->
  forallb has_str_title polymarkets = true ->
  exists ms, Exact.match_markets kalshi polymarkets = Ok ms.
Proof.
  intros Ha Hb. unfold Exact.match_markets, Exact.kalshi_lookup.
  destruct (kalshi_lookup_from_returns kalshi ∅ Ha) as [lookup ->]. simpl.
  apply for_each_returns. intros pm Hpm.
  assert (Hwf : has_str_title pm = true).
  { rewrite forallb_forall in Hb. now apply Hb. }
  destruct (has_str_title_key pm Hwf) as [key Hkey].
  unfold Exact.match_one. unfold title_key in Hkey.
  destruct (getitem pm (str "title")) as [title|]; simpl in *; [|discriminate].
  rewrite Hkey. simpl. destruct (lookup !! key); eauto.
Qed.

Lemma match_markets_length (kalshi polymarkets : list pyval)
  (ms : list Exact.matched) :
  Exact.match_markets kalshi polymarkets = Ok ms ->
  (length ms <= length polymarkets)%nat.
Proof.
  intros Hms. apply match_markets_ok in Hms as (lookup & Hl & Hms).
  eapply for_each_length; [|exact Hms].
  intros pm ys Hys. rewrite (match_one_spec _ _ _ _ Hl Hys).
  destruct (getitem pm (str "title")); [|simpl; lia].
  destruct (title_key pm); [|simpl; lia].
  destruct (last_with_key _ kalshi); simpl; lia.
Qed.

(** C4: the lookup table maps a normalized title to the last source-A
    market with that normalized title; each source-B market, in order, gives
    a pair exactly when its normalized title is in the table; the two
    normalized titles of every pair are equal; the result is a function of
    the two lists; and the matcher returns whenever every market has a
    string title. *)
Theorem match_markets_correct (kalshi polymarkets : list pyval) :
  (forall lookup key,
      Exact.kalshi_lookup kalshi = Ok lookup ->
      lookup !! key = last_with_key key kalshi)
  /\ (forall lookup pm title key,
        getitem pm (str "title") = Ok title ->
        Exact.normalize_title title = Ok key ->
        Exact.match_one lookup pm
        = Ok match lookup !! key with
             | Some k => [ {| Exact.name := title; Exact.kalshi := k;
                              Exact.polymarket := pm |} ]
             | None => []
             end)
  /\ (forall ms,
        Exact.match_markets kalshi polymarkets = Ok ms ->
        ms = match_markets_spec kalshi polymarkets
        /\ List.Forall
             (fun m => exists key,
                  title_key (Exact.kalshi m) = Ok key
                  /\ title_key (Exact.polymarket m) = Ok key)
             ms)
  /\ (forall ms ms',
        Exact.match_markets kalshi polymarkets = Ok ms ->
        Exact.match_markets kalshi polymarkets = Ok ms' ->
        ms = ms')
  /\ (forallb has_str_title kalshi = true ->
      forallb has_str_title polymarkets = true ->
      Exact.match_markets kalshi polymarkets
      = Ok (match_markets_spec kalshi polymarkets)).
Proof.
  assert (Hspec : forall ms,
             Exact.match_markets kalshi polymarkets = Ok ms ->
             ms = match_markets_spec kalshi polymarkets).
  { intros ms Hms. apply match_markets_ok in Hms as (lookup & Hl & Hms).
    eapply for_each_flat_map; [|exact Hms].
    intros pm ys Hys. apply (match_one_spec kalshi lookup pm ys Hl Hys). }
  split; [|split; [|split; [|split]]].
  - intros lookup key. apply kalshi_lookup_spec.
  - intros lookup pm title key Ht Hk. unfold Exact.match_one.
    rewrite Ht. simpl. rewrite Hk. simpl. now destruct (lookup !! key).
  - intros ms Hms. split; [now apply Hspec|].
    apply match_markets_ok in Hms as (lookup & Hl & Hms).
    eapply for_each_Forall; [|exact Hms].
    intros pm ys _ Hys. rewrite (match_one_spec _ _ _ _ Hl Hys).
    destruct (getitem pm (str "title")); [|constructor].
    destruct (title_key pm) as [key|] eqn:Hkey; [|constructor].
    destruct (last_with_key key kalshi) as [k|] eqn:Hk; [|constructor].
    constructor; [|constructor]. exists key. simpl.
    split; [now apply (last_with_key_title key kalshi)|exact Hkey].
  - congruence.
  - intros Ha Hb. destruct (match_markets_returns _ _ Ha Hb) as [ms Hms].
    rewrite Hms. f_equal. now apply Hspec.
Qed.

(** C2, as the code has it: the exact matcher returns at most one pair per
    source-B market, so at most [|B|] pairs, and none when there is no
    source-A market; it returns whenever every market has a string title. *)
Theorem match_markets_count (kalshi polymarkets : list pyval) :
  (forall ms,
      Exact.match_markets kalshi polymarkets = Ok ms ->
      (length ms <= length polymarkets)%nat
      /\ (kalshi = [] -> ms = []))
  /\ (forallb has_str_title kalshi = true ->
      forallb has_str_title polymarkets = true ->
      exists ms,
        Exact.match_markets kalshi polymarkets = Ok ms
        /\ (length ms <= length polymarkets)%nat).
Proof.
  split.
  - intros ms Hms. split; [exact (match_markets_length kalshi _ _ Hms)|].
    intros ->. apply match_markets_ok in Hms as (lookup & Hl & Hms).
    injection Hl as <-.
    assert (Hnone : forall pm ys,
               Exact.match_one ∅ pm = Ok ys -> ys = (fun _ => []) pm).
    { intros pm ys. unfold Exact.match_one.
      destruct (getitem pm (str "title")) as [title|]; simpl; [|discriminate].
      destruct (Exact.normalize_title title); simpl; [|discriminate].
      rewrite lookup_empty. now intros [= <-]. }
    rewrite (for_each_flat_map _ _ _ _ Hnone Hms).
    clear. induction polymarkets; [reflexivity|assumption].
  - intros Ha Hb. destruct (match_markets_returns _ _ Ha Hb) as [ms Hms].
    exists ms. split; [exact Hms|exact (match_markets_length kalshi _ _ Hms)].
Qed.

End ExactMatcher.

(** ** The embedding matcher *)

Section AiMatcher.
Context `{PyRuntime} `{Collaborators}.

Lemma get_embedding_returns (text : pyval) :
  exists v, Ai.get_embedding text = Ok v.
Proof. apply try_except_returns. Qed.

Lemma leb_not_gt (a b : float) :
  Float.leb a b = true -> Float.ltb b a = false.
Proof.
  intros Hab. apply total_le_not_gt. unfold total_le. rewrite Hab.
  unfold Float.leb, SFleb, SFcompare in Hab.
  destruct a, b; try discriminate; reflexivity.
Qed.

(** What one comparison emits, in terms of the similarity of the pair. *)
Lemma compare_one_emits (k k_title : pyval) (k_embed : list float)
  (p : pyval) (ys : list Ai.matched) :
  getitem k (str "title") = Ok k_title ->
  Ai.get_embedding k_title = Ok k_embed ->
  Ai.compare_one k k_title k_embed p = Ok ys ->
  exists sim,
    pair_similarity k p = Ok sim
    /\ ys = if Float.ltb Ai.threshold sim
            then [ {| Ai.name := k_title; Ai.kalshi := k; Ai.polymarket := p;
                      Ai.similarity := Float.np_round sim 3 |} ]
            else [].
Proof.
  intros Ht He. unfold Ai.compare_one, pair_similarity. rewrite Ht. simpl.
  rewrite He. simpl.
  destruct (Ai.extract_polymarket_title p) as [p_title|]; simpl; [|discriminate].
  destruct (Ai.get_embedding p_title) as [p_embed|]; simpl; [|discriminate].
  destruct (slice_prefix k_title); simpl; [|discriminate].
  destruct (slice_prefix p_title); simpl; [|discriminate].
  intros Hys. eexists. split; [reflexivity|].
  destruct (Float.ltb Ai.threshold _); now injection Hys as <-.
Qed.

Lemma match_markets_ai_emits (kalshi polymarkets : list pyval)
  (ms : list Ai.matched) :
  Ai.match_markets_ai kalshi polymarkets = Ok ms ->
  List.Forall
    (fun m => exists sim,
         In (Ai.kalshi m) kalshi /\ In (Ai.polymarket m) polymarkets
         /\ pair_similarity (Ai.kalshi m) (Ai.polymarket m) = Ok sim
         /\ Float.ltb Ai.threshold sim = true
         /\ Ai.similarity m = Float.np_round sim 3)
    ms.
Proof.
  unfold Ai.match_markets_ai. apply for_each_Forall.
  intros k ys Hk. unfold Ai.match_kalshi.
  destruct (getitem k (str "title")) as [k_title|] eqn:Ht; simpl; [|discriminate].
  destruct (Ai.get_embedding k_title) as [k_embed|] eqn:He; simpl; [|discriminate].
  apply for_each_Forall. intros p zs Hp Hzs.
  destruct (compare_one_emits _ _ _ _ _ Ht He Hzs) as (sim & Hsim & ->).
  destruct (Float.ltb Ai.threshold sim) eqn:Hgt; constructor; [|constructor].
  exists sim. simpl. auto.
Qed.

(** C5, as the code has it: every emitted pair comes from a combination
    whose cosine similarity is strictly greater than 0.90, and carries that
    similarity rounded to three decimals; when every combination has a
    similarity of at most 0.90 nothing is emitted. *)
Theorem match_markets_ai_threshold (kalshi polymarkets : list pyval)
  (ms : list Ai.matched) :
  Ai.match_markets_ai kalshi polymarkets = Ok ms ->
  List.Forall
    (fun m => exists sim,
         In (Ai.kalshi m) kalshi /\ In (Ai.polymarket m) polymarkets
         /\ pair_similarity (Ai.kalshi m) (Ai.polymarket m) = Ok sim
         /\ Float.ltb Ai.threshold sim = true
         /\ Ai.similarity m = Float.np_round sim 3)
    ms
  /\ ((forall k p sim,
         In k kalshi -> In p polymarkets ->
         pair_similarity k p = Ok sim -> Float.leb sim Ai.threshold = true) ->
      ms = []).
Proof.
  intros Hms. pose proof (match_markets_ai_emits _ _ _ Hms) as Hall.
  split; [exact Hall|]. intros Hlow.
  destruct ms as [|m ms]; [reflexivity|]. exfalso.
  apply List.Forall_inv in Hall as (sim & Hk & Hp & Hsim & Hgt & _).
  specialize (Hlow _ _ _ Hk Hp Hsim). apply leb_not_gt in Hlow. congruence.
Qed.

Lemma extract_polymarket_title_dict (d : list (pystr * pyval)) :
  Ai.extract_polymarket_title (PyDict d)
  = Ok (if truthy (field d "question") then field d "question"
        else if truthy (field d "title") then field d "title"
        else if truthy (field d "slug") then field d "slug"
        else PyStr (str "unknown")).
Proof.
  unfold Ai.extract_polymarket_title, field. simpl.
  destruct (truthy (default PyNone (dict_get d (str "question"))));
    [reflexivity|].
  destruct (truthy (default PyNone (dict_get d (str "title"))));
    [reflexivity|].
  now destruct (truthy (default PyNone (dict_get d (str "slug")))).
Qed.

(** C10: on a source-B record the title extractor returns the first truthy
    value among [question], [title] and [slug], and the string "unknown"
    when none is truthy.  A record without a title is therefore compared
    like any other, and the outcome of the comparison with a source-A
    market depends on the embedding of "unknown" alone, the same for every
    such record. *)
Theorem extract_polymarket_title_fallback (d : list (pystr * pyval)) :
  Ai.extract_polymarket_title (PyDict d)
  = Ok (py_or (field d "question")
          (py_or (field d "title")
             (py_or (field d "slug") (PyStr (str "unknown")))))
  /\ (untitled d = true ->
      Ai.extract_polymarket_title (PyDict d) = Ok (PyStr (str "unknown")))
  /\ exists unknown_embed,
      Ai.get_embedding (PyStr (str "unknown")) = Ok unknown_embed
      /\ forall k k_title k_embed,
          untitled d = true ->
          Ai.compare_one k k_title k_embed (PyDict d)
          = (do _ <- slice_prefix k_title;
             let sim := cosine_similarity k_embed unknown_embed in
             Ok (if Float.ltb Ai.threshold sim
                 then [ {| Ai.name := k_title; Ai.kalshi := k;
                           Ai.polymarket := PyDict d;
                           Ai.similarity := Float.np_round sim 3 |} ]
                 else [])).
Proof.
  assert (Hun : untitled d = true ->
                Ai.extract_polymarket_title (PyDict d)
                = Ok (PyStr (str "unknown"))).
  { unfold untitled. rewrite extract_polymarket_title_dict.
    intros Hu. apply andb_true_iff in Hu as [Hu Hs].
    apply andb_true_iff in Hu as [Hq Ht].
    apply negb_true_iff in Hq, Ht, Hs. now rewrite Hq, Ht, Hs. }
  split; [|split; [exact Hun|]].
  - rewrite extract_polymarket_title_dict. unfold py_or.
    destruct (truthy (field d "question")); [reflexivity|].
    destruct (truthy (field d "title")); [reflexivity|].
    now destruct (truthy (field d "slug")).
  - destruct (get_embedding_returns (PyStr (str "unknown"))) as [ue Hue].
    exists ue. split; [exact Hue|]. intros k k_title k_embed Hu.
    unfold Ai.compare_one. rewrite (Hun Hu). simpl. rewrite Hue. simpl.
    destruct (slice_prefix k_title); simpl; [|reflexivity].
    now destruct (Float.ltb Ai.threshold _).
Qed.

End AiMatcher.

(** ** Caching the embeddings *)

Section Caching.
Context `{PyRuntime} `{Collaborators}.

Lemma for_each_st_refines {S A B : Type} (I : S -> Prop)
  (f : A -> result (list B)) (g : A -> S -> result (list B * S)) :
  (forall x st, I st -> refines I (f x) (g x st)) ->
  forall l st, I st -> refines I (for_each f l) (Ai.for_each_st g l st).
Proof.
  intros Hfg l. induction l as [|x l IH]; intros st Hst; simpl.
  - exists st. auto.
  - specialize (Hfg x st Hst). unfold refines in Hfg.
    destruct (f x) as [ys|e]; simpl.
    + destruct Hfg as (st1 & -> & Hst1). simpl.
      specialize (IH st1 Hst1). unfold refines in IH.
      destruct (for_each f l) as [zs|e]; simpl.
      * destruct IH as (st2 & -> & Hst2). simpl. exists st2. auto.
      * now rewrite IH.
    + now rewrite Hfg.
Qed.

Lemma cache_ok_empty : cache_ok ∅.
Proof. intros s v Hs. now rewrite lookup_empty in Hs. Qed.

Lemma cache_ok_insert (cache : gmap pystr (list float)) (s : pystr)
  (v : list float) :
  cache_ok cache -> Ai.get_embedding (PyStr s) = Ok v ->
  cache_ok (<[s := v]> cache).
Proof.
  intros Hc Hv s' v' Hs'. destruct (decide (s = s')) as [<-|Hne].
  - rewrite lookup_insert_eq in Hs'. now injection Hs' as <-.
  - rewrite lookup_insert_ne in Hs' by exact Hne. now apply Hc.
Qed.

Lemma get_embedding_cached_refines (text : pyval)
  (cache : gmap pystr (list float)) :
  cache_ok cache ->
  refines cache_ok (Ai.get_embedding text) (Ai.get_embedding_cached text cache).
Proof.
  intros Hc. destruct (get_embedding_returns text) as [v Hv].
  rewrite Hv. unfold Ai.get_embedding_cached.
  destruct text as [| | | |s| |]; try (rewrite Hv; simpl; eexists; eauto; fail).
  destruct (cache !! s) as [v'|] eqn:Hs.
  - apply Hc in Hs. rewrite Hv in Hs. injection Hs as <-. exists cache. auto.
  - rewrite Hv. simpl. eexists. split; [reflexivity|].
    now apply cache_ok_insert.
Qed.

Lemma compare_one_cached_refines (k k_title : pyval) (k_embed : list float)
  (p : pyval) (cache : gmap pystr (list float)) :
  cache_ok cache ->
  refines cache_ok (Ai.compare_one k k_title k_embed p)
    (Ai.compare_one_cached k k_title k_embed p cache).
Proof.
  intros Hc. unfold Ai.compare_one, Ai.compare_one_cached.
  destruct (Ai.extract_polymarket_title p) as [p_title|]; simpl; [|reflexivity].
  pose proof (get_embedding_cached_refines p_title cache Hc) as Hp.
  unfold refines in Hp.
  destruct (Ai.get_embedding p_title) as [p_embed|]; simpl.
  - destruct Hp as (cache' & -> & Hc'). simpl.
    destruct (slice_prefix k_title); simpl; [|reflexivity].
    destruct (slice_prefix p_title); simpl; [|reflexivity].
    destruct (Float.ltb Ai.threshold _); simpl; eexists; eauto.
  - now rewrite Hp.
Qed.

Lemma match_kalshi_cached_refines (polymarkets : list pyval) (k : pyval)
  (cache : gmap pystr (list float)) :
  cache_ok cache ->
  refines cache_ok (Ai.match_kalshi polymarkets k)
    (Ai.match_kalshi_cached polymarkets k cache).
Proof.
  intros Hc. unfold Ai.match_kalshi, Ai.match_kalshi_cached.
  destruct (getitem k (str "title")) as [k_title|]; simpl; [|reflexivity].
  pose proof (get_embedding_cached_refines k_title cache Hc) as Hk.
  unfold refines in Hk.
  destruct (Ai.get_embedding k_title) as [k_embed|]; simpl.
  - destruct Hk as (cache' & -> & Hc'). simpl.
    apply for_each_st_refines; [|exact Hc'].
    intros p st Hst. now apply compare_one_cached_refines.
  - now rewrite Hk.
Qed.

(** C9: for every deterministic embedding provider and every two market
    lists, the matcher that looks embeddings up in a per-pass cache returns
    what the matcher as written returns: the same list of pairs, or the
    same exception. *)
Theorem match_markets_ai_cached_equiv (kalshi polymarkets : list pyval) :
  Ai.match_markets_ai_cached kalshi polymarkets
  = Ai.match_markets_ai kalshi polymarkets.
Proof.
  unfold Ai.match_markets_ai_cached, Ai.match_markets_ai.
  pose proof (for_each_st_refines cache_ok (Ai.match_kalshi polymarkets)
                (Ai.match_kalshi_cached polymarkets)
                (match_kalshi_cached_refines polymarkets)
                kalshi ∅ cache_ok_empty) as Href.
  unfold refines in Href.
  destruct (for_each (Ai.match_kalshi polymarkets) kalshi) as [ms|e].
  - destruct Href as (cache & -> & _). reflexivity.
  - now rewrite Href.
Qed.

End Caching.

(** ** Result assembly *)

Section Assembly.
Context `{PyRuntime} `{Collaborators}.

Lemma ascending_pairs {A : Type} (key : A -> float) (l : list A) :
  ascending key l ->
  ForallOrdPairs (fun a b => Float.ltb (key b) (key a) = false) l.
Proof.
  unfold ascending. induction 1 as [|x l Hl IH Hx]; constructor.
  - eapply List.Forall_impl; [|exact Hx]. intros y. apply total_le_not_gt.
  - exact IH.
Qed.

Lemma exact_displayed_perm (rows : list Exact.row) :
  Permutation rows (Exact.displayed rows).
Proof.
  destruct rows as [|r rows]; [constructor|].
  apply (sort_values_by_perm Exact.Total_Cost).
Qed.

Lemma exact_displayed_ascending (rows : list Exact.row) :
  ascending Exact.Total_Cost (Exact.displayed rows).
Proof.
  destruct rows as [|r rows]; [constructor|].
  apply (sort_values_by_ascending Exact.Total_Cost).
Qed.

Lemma ai_displayed_perm (rows : list Ai.row) :
  Permutation rows (Ai.displayed rows).
Proof.
  destruct rows as [|r rows]; [constructor|].
  apply (sort_values_by_perm Ai.Total_Cost).
Qed.

Lemma ai_displayed_ascending (rows : list Ai.row) :
  ascending Ai.Total_Cost (Ai.displayed rows).
Proof.
  destruct rows as [|r rows]; [constructor|].
  apply (sort_values_by_ascending Ai.Total_Cost).
Qed.

(** C6: in both dashboards the list handed to the display holds exactly
    the rows the evaluation produced, with or without arbitrage, in
    ascending order of total cost: no row is followed by one of strictly
    smaller total cost (a NaN total sorts last). *)
Theorem displayed_sorted_complete :
  (forall rows : list Exact.row,
      Permutation rows (Exact.displayed rows)
      /\ ascending Exact.Total_Cost (Exact.displayed rows)
      /\ ForallOrdPairs
           (fun a b =>
              Float.ltb (Exact.Total_Cost b) (Exact.Total_Cost a) = false)
           (Exact.displayed rows))
  /\ (forall rows : list Ai.row,
        Permutation rows (Ai.displayed rows)
        /\ ascending Ai.Total_Cost (Ai.displayed rows)
        /\ ForallOrdPairs
             (fun a b => Float.ltb (Ai.Total_Cost b) (Ai.Total_Cost a) = false)
             (Ai.displayed rows))
  /\ (forall kalshi polymarkets stake out,
        Exact.refresh kalshi polymarkets stake = Ok out ->
        exists ms rows,
          Exact.match_markets kalshi polymarkets = Ok ms
          /\ Exact.evaluate_all ms stake = Ok rows
          /\ Permutation rows out
          /\ ascending Exact.Total_Cost out)
  /\ (forall kalshi polymarkets stake out,
        Ai.run kalshi polymarkets stake = Ok out ->
        exists ms rows,
          Ai.match_markets_ai kalshi polymarkets = Ok ms
          /\ Ai.evaluate_all ms stake = Ok rows
          /\ Permutation rows out
          /\ ascending Ai.Total_Cost out).
Proof.
  split; [|split; [|split]].
  - intros rows. split; [apply exact_displayed_perm|].
    split; [apply exact_displayed_ascending|].
    apply ascending_pairs, exact_displayed_ascending.
  - intros rows. split; [apply ai_displayed_perm|].
    split; [apply ai_displayed_ascending|].
    apply ascending_pairs, ai_displayed_ascending.
  - intros kalshi polymarkets stake out. unfold Exact.refresh.
    destruct (Exact.match_markets kalshi polymarkets) as [ms|]; simpl;
      [|discriminate].
    destruct (Exact.evaluate_all ms stake) as [rows|] eqn:Hrows; simpl;
      [|discriminate].
    intros [= <-]. exists ms, rows.
    split; [reflexivity|]. split; [exact Hrows|].
    split; [apply exact_displayed_perm|apply exact_displayed_ascending].
  - intros kalshi polymarkets stake out. unfold Ai.run.
    destruct (Ai.match_markets_ai kalshi polymarkets) as [ms|]; simpl;
      [|discriminate].
    destruct (Ai.evaluate_all ms stake) as [rows|] eqn:Hrows; simpl;
      [|discriminate].
    intros [= <-]. exists ms, rows.
    split; [reflexivity|]. split; [exact Hrows|].
    split; [apply ai_displayed_perm|apply ai_displayed_ascending].
Qed.

End Assembly.

(** ** Completion of matching and evaluation *)

Section Completion.
Context `{PyRuntime} `{Collaborators}.

Lemma for_each_length_mul {A B : Type} (f : A -> result (list B)) (n : nat)
  (l : list A) (zs : list B) :
  (forall x ys, f x = Ok ys -> (length ys <= n)%nat) ->
  for_each f l = Ok zs -> (length zs <= length l * n)%nat.
Proof.
  intros Hf. revert zs. induction l as [|x l IH]; intros zs Hzs.
  - injection Hzs as <-. simpl. lia.
  - apply for_each_cons_ok in Hzs as (ys & ws & Hx & Hl & ->).
    rewrite length_app. simpl. specialize (Hf x ys Hx).
    specialize (IH ws Hl). lia.
Qed.

Lemma exact_evaluate_returns (pair : Exact.matched) (stake : Z) :
  stake_range stake ->
  exists rows, Exact.evaluate pair stake = Ok rows /\ (length rows <= 1)%nat.
Proof.
  intros Hs.
  destruct (proj1 (price_extractors_total_aux (Exact.kalshi pair))) as [pa Ha].
  destruct (proj2 (price_extractors_total_aux (Exact.polymarket pair)))
    as [pb Hb].
  destruct pa as [a|], pb as [b|];
    try (exists []; split; [eapply evaluate_skip; eauto|simpl; lia]; fail).
  eexists. split; [exact (evaluate_row pair stake a b Hs Ha Hb)|]. simpl. lia.
Qed.

Lemma ai_evaluate_returns (pair : Ai.matched) (stake : Z) :
  stake_range stake ->
  exists rows, Ai.evaluate pair stake = Ok rows /\ (length rows <= 1)%nat.
Proof.
  intros Hs. unfold Ai.evaluate, Ai.get_kalshi_yes_bid,
    Ai.get_polymarket_no_price, Ai.calculate_profit.
  destruct (proj1 (price_extractors_total_aux (Ai.kalshi pair))) as [pa ->].
  destruct (proj2 (price_extractors_total_aux (Ai.polymarket pair)))
    as [pb ->].
  simpl. destruct pa as [a|], pb as [b|];
    try (exists []; split; [reflexivity|simpl; lia]; fail).
  rewrite (calculate_profit_stake _ _ Hs).
  destruct (Float.ltb (Float.add a b) Exact.one); simpl;
    eexists; (split; [reflexivity|simpl; lia]).
Qed.

Lemma evaluate_all_returns {P R : Type} (evaluate : P -> Z -> result (list R))
  (ms : list P) (stake : Z) :
  (forall pair, exists rows,
        evaluate pair stake = Ok rows /\ (length rows <= 1)%nat) ->
  exists rows,
    for_each (fun pair => evaluate pair stake) ms = Ok rows
    /\ (length rows <= length ms)%nat.
Proof.
  intros He.
  destruct (for_each_returns (fun pair => evaluate pair stake) ms)
    as [rows Hrows].
  { intros pair _. destruct (He pair) as (rows & Hr & _). eauto. }
  exists rows. split; [exact Hrows|].
  eapply for_each_length; [|exact Hrows]. intros pair ys Hys.
  destruct (He pair) as (rows' & Hr & Hlen). simpl in Hys. congruence.
Qed.

Lemma text_titles_extract (p : pyval) :
  text_titles p = true ->
  exists s, Ai.extract_polymarket_title p = Ok (PyStr s).
Proof.
  destruct p as [| | | | | |d]; try discriminate. simpl.
  rewrite extract_polymarket_title_dict. rewrite !andb_true_iff.
  intros (Hq & Ht & Hs & _).
  destruct (field d "question"); try discriminate;
    destruct (field d "title"); try discriminate;
    destruct (field d "slug"); try discriminate; simpl;
    repeat match goal with
      | |- context [if ?b then _ else _] => destruct b
      end; eauto.
Qed.

Lemma match_markets_ai_returns (kalshi polymarkets : list pyval) :
  forallb has_str_title kalshi = true ->
  forallb text_titles polymarkets = true ->
  exists ms,
    Ai.match_markets_ai kalshi polymarkets = Ok ms
    /\ (length ms <= length kalshi * length polymarkets)%nat.
Proof.
  intros Ha Hb. rewrite forallb_forall in Ha, Hb.
  assert (Hinner : forall k k_title k_embed p,
             In p polymarkets ->
             exists ys, Ai.compare_one k (PyStr k_title) k_embed p = Ok ys).
  { intros k k_title k_embed p Hp. unfold Ai.compare_one.
    destruct (text_titles_extract p (Hb p Hp)) as [s ->]. simpl.
    destruct (get_embedding_returns (PyStr s)) as [v ->]. simpl.
    destruct (Float.ltb Ai.threshold _); eauto. }
  assert (Hone : forall k k_title k_embed p ys,
             Ai.compare_one k k_title k_embed p = Ok ys -> (length ys <= 1)%nat).
  { intros k k_title k_embed p ys. unfold Ai.compare_one. intros Hys.
    repeat step_bind; try discriminate.
    destruct (Float.ltb Ai.threshold _); injection Hys as <-; simpl; lia. }
  destruct (for_each_returns (Ai.match_kalshi polymarkets) kalshi)
    as [ms Hms].
  { intros k Hk. specialize (Ha k Hk). unfold has_str_title in Ha.
    unfold Ai.match_kalshi.
    destruct (getitem k (str "title")) as [[| | | |s| |]|]; try discriminate.
    simpl. destruct (get_embedding_returns (PyStr s)) as [v ->]. simpl.
    apply for_each_returns. intros p Hp. now apply Hinner. }
  exists ms. split; [exact Hms|].
  eapply for_each_length_mul; [|exact Hms].
  intros k ys. unfold Ai.match_kalshi. intros Hys.
  repeat step_bind; try discriminate.
  pose proof (for_each_length_mul _ 1 _ _ (Hone k _ _) Hys). lia.
Qed.

End Completion.

Section CompletionTheorem.
Context `{PyRuntime} `{Collaborators}.

(** C3, as the code has it: evaluation never raises, whatever the markets
    of the matched pairs look like, and yields at most one row per pair.
    The exact matcher returns when every market of both lists has a string
    title; the embedding matcher returns when every source-A market has a
    string title and every source-B market is a record whose [question],
    [title] and [slug] are absent, null or strings.  On such lists a whole
    cycle returns its list of rows. *)
Theorem core_completes (kalshi polymarkets : list pyval) (stake : Z) :
  stake_range stake ->
  (forall ms, exists rows,
        Exact.evaluate_all ms stake = Ok rows
        /\ (length rows <= length ms)%nat)
  /\ (forall ms, exists rows,
          Ai.evaluate_all ms stake = Ok rows
          /\ (length rows <= length ms)%nat)
  /\ (forallb has_str_title kalshi = true ->
      forallb has_str_title polymarkets = true ->
      exists rows,
        Exact.refresh kalshi polymarkets stake = Ok rows
        /\ (length rows <= length polymarkets)%nat)
  /\ (forallb has_str_title kalshi = true ->
      forallb text_titles polymarkets = true ->
      exists rows,
        Ai.run kalshi polymarkets stake = Ok rows
        /\ (length rows <= length kalshi * length polymarkets)%nat).
Proof.
  intros Hs.
  assert (He : forall ms, exists rows,
               Exact.evaluate_all ms stake = Ok rows
               /\ (length rows <= length ms)%nat).
  { intros ms. apply evaluate_all_returns.
    intros pair. now apply exact_evaluate_returns. }
  assert (Ha : forall ms, exists rows,
               Ai.evaluate_all ms stake = Ok rows
               /\ (length rows <= length ms)%nat).
  { intros ms. apply evaluate_all_returns.
    intros pair. now apply ai_evaluate_returns. }
  split; [exact He|]. split; [exact Ha|]. split.
  - intros Hk Hp. unfold Exact.refresh.
    destruct (match_markets_returns _ _ Hk Hp) as [ms Hms].
    rewrite Hms. simpl. destruct (He ms) as (rows & -> & Hlen). simpl.
    eexists. split; [reflexivity|].
    rewrite <- (Permutation_length (exact_displayed_perm rows)).
    pose proof (match_markets_length _ _ _ Hms). lia.
  - intros Hk Hp. unfold Ai.run.
    destruct (match_markets_ai_returns _ _ Hk Hp) as (ms & -> & Hms).
    simpl. destruct (Ha ms) as (rows & -> & Hlen). simpl.
    eexists. split; [reflexivity|].
    rewrite <- (Permutation_length (ai_displayed_perm rows)). lia.
Qed.

Lemma get_embedding_cached_hit (s : pystr) (v : list float)
  (cache : gmap pystr (list float)) :
  cache !! s = Some v ->
  Ai.get_embedding_cached (PyStr s) cache = Ok (v, cache).
Proof. intros Hs. unfold Ai.get_embedding_cached. now rewrite Hs. Qed.

End CompletionTheorem.

(** ** Worked examples *)

Section Examples.
#[local] Existing Instance Demo.runtime.
#[local] Existing Instance Demo.collaborators.

Lemma stake_100 : stake_range 100.
Proof. unfold stake_range. lia. Qed.

Lemma demo_lowercase_stable : lowercase_stable.
Proof.
  assert (Hfix : forall d, ~ (0x41 <= d <= 0x5A)%N -> d <> capital_sigma ->
                           lower_fixed d).
  { intros d Hd Hs. split; [exact Hs|]. simpl. unfold Demo.ascii_lower,
      Demo.between.
    destruct (N.leb_spec 0x41 d), (N.leb_spec d 0x5A); simpl; try reflexivity.
    lia. }
  split; [|split].
  - intros c d Hc. simpl. unfold Demo.ascii_lower, Demo.between.
    destruct (N.leb_spec 0x41 c), (N.leb_spec c 0x5A); simpl;
      intros [<-|[]]; apply Hfix; unfold capital_sigma in *; lia.
  - apply Hfix; unfold capital_sigma, final_sigma_cp; lia.
  - apply Hfix; unfold capital_sigma, small_sigma; lia.
Qed.

(** The end-to-end scenario of the spec: the titles match after
    normalization, the total is 0.9, the profit on a stake of 100 is 10. *)
Example rain_scenario :
  Exact.refresh [Demo.rain_a] [Demo.rain_b] 100
  = Ok [ {| Exact.Market := Demo.text "Will it rain tomorrow";
            Exact.Kalshi_YES := Float.ratio 3 10;
            Exact.Polymarket_NO := Float.ratio 6 10;
            Exact.Total_Cost := Float.ratio 9 10;
            Exact.Arbitrage := true;
            Exact.Profit := Some (Float.of_Z 10) |} ].
Proof. now vm_compute. Qed.

(** Prices 0.60 and 0.55: total 1.15, no arbitrage, no profit. *)
Example no_arbitrage_scenario :
  Exact.evaluate
    {| Exact.name := Demo.text "Fed rate cut by June";
       Exact.kalshi := Demo.kalshi_market "Fed" (Float.ratio 60 100);
       Exact.polymarket := Demo.fed_b |} 100
  = Ok [ {| Exact.Market := Demo.text "Fed rate cut by June";
            Exact.Kalshi_YES := Float.ratio 60 100;
            Exact.Polymarket_NO := Float.ratio 55 100;
            Exact.Total_Cost := Float.ratio 115 100;
            Exact.Arbitrage := false;
            Exact.Profit := None |} ].
Proof. now vm_compute. Qed.

(** A source-B market that keeps its title under [question] stops the
    exact matcher, and is matched by the embedding matcher. *)
Example question_field_scenario :
  Exact.match_markets [Demo.rain_a] [Demo.rain_question] = Raise KeyError
  /\ Ai.extract_polymarket_title Demo.rain_question
     = Ok (Demo.text "Will it rain tomorrow").
Proof. split; now vm_compute. Qed.

(** Witness of C1 on a pair with prices 0.40 and 0.55 and a stake of 100. *)
Lemma evaluate_correct_witness :
  stake_range 100
  /\ exists r,
      Exact.evaluate Demo.fed_pair 100 = Ok [r]
      /\ Exact.Total_Cost r = Float.ratio 95 100
      /\ Exact.Arbitrage r = true
      /\ Exact.Profit r = Some (Float.ratio 500 100).
Proof.
  split; [exact stake_100|].
  destruct (evaluate_correct Demo.fed_pair 100 stake_100)
    as (pa & pb & Ha & Hb & _ & Hex).
  apply Hex; [| |reflexivity].
  - vm_compute in Ha. now injection Ha as <-.
  - vm_compute in Hb. now injection Hb as <-.
Defined.

(** Counterexample to C2: one source-A market, two source-B markets with
    the same normalized title, two pairs. *)
Lemma match_markets_exceeds_min :
  disjoint_markets [Demo.rain_a] [Demo.rain_b; Demo.rain_b']
  /\ exists ms,
      Exact.match_markets [Demo.rain_a] [Demo.rain_b; Demo.rain_b'] = Ok ms
      /\ (Nat.min (length [Demo.rain_a]) (length [Demo.rain_b; Demo.rain_b'])
          < length ms)%nat.
Proof.
  split.
  - intros m [<-|[]] [Hm|[Hm|[]]]; vm_compute in Hm; discriminate.
  - eexists. split; [now vm_compute|]. simpl. lia.
Qed.

(** Witness of C2 on the same lists. *)
Lemma match_markets_count_witness :
  exists ms,
    Exact.match_markets [Demo.rain_a] [Demo.rain_b; Demo.rain_b'] = Ok ms
    /\ (length ms <= 2)%nat.
Proof.
  apply (proj2 (match_markets_count [Demo.rain_a] [Demo.rain_b; Demo.rain_b']));
    reflexivity.
Defined.

(** Counterexample to C3: a source-A market without a title stops both
    matchers, and with them the whole cycle. *)
Lemma untitled_market_aborts :
  Exact.match_markets [Demo.untitled_a] [Demo.rain_b] = Raise KeyError
  /\ Exact.refresh [Demo.untitled_a] [Demo.rain_b] 100 = Raise KeyError
  /\ Ai.match_markets_ai [Demo.untitled_a] [Demo.rain_b] = Raise KeyError
  /\ Ai.run [Demo.untitled_a] [Demo.rain_b] 100 = Raise KeyError.
Proof. repeat split; now vm_compute. Qed.

(** Witness of C3 on the markets of the rain scenario. *)
Lemma core_completes_witness :
  stake_range 100
  /\ (exists rows,
        Exact.refresh [Demo.rain_a] [Demo.rain_b; Demo.rain_b'] 100 = Ok rows
        /\ (length rows <= 2)%nat)
  /\ (exists rows,
        Ai.run [Demo.rain_a; Demo.fed_a] [Demo.rain_question; Demo.fed_b] 100
        = Ok rows
        /\ (length rows <= 2 * 2)%nat).
Proof.
  split; [exact stake_100|].
  pose proof (core_completes [Demo.rain_a] [Demo.rain_b; Demo.rain_b'] 100
                stake_100) as (_ & _ & Hexact & _).
  pose proof (core_completes [Demo.rain_a; Demo.fed_a]
                [Demo.rain_question; Demo.fed_b] 100 stake_100)
    as (_ & _ & _ & Hai).
  split; [apply Hexact; reflexivity|apply Hai; reflexivity].
Defined.

(** Witness of C4: one source-A market, two source-B markets of the same
    normalized title. *)
Lemma match_markets_correct_witness :
  Exact.match_markets [Demo.rain_a] [Demo.rain_b; Demo.rain_b']
  = Ok [ {| Exact.name := Demo.text "Will it rain tomorrow";
            Exact.kalshi := Demo.rain_a; Exact.polymarket := Demo.rain_b |};
         {| Exact.name := Demo.text "will it rain, tomorrow?";
            Exact.kalshi := Demo.rain_a; Exact.polymarket := Demo.rain_b' |} ].
Proof.
  pose proof (match_markets_correct [Demo.rain_a] [Demo.rain_b; Demo.rain_b'])
    as (_ & _ & _ & _ & Hret).
  rewrite Hret by reflexivity. now vm_compute.
Defined.

(** Counterexample to C5: the two Fed markets have a cosine similarity of
    about 0.9001, above the threshold, and the emitted pair carries 0.9,
    which is not above it. *)
Lemma similarity_rounds_to_threshold :
  exists m,
    Ai.match_markets_ai [Demo.fed_a] [Demo.fed_b] = Ok [m]
    /\ Ai.similarity m = Ai.threshold
    /\ Float.ltb Ai.threshold (Ai.similarity m) = false.
Proof.
  eexists. split; [vm_compute; reflexivity|].
  split; vm_compute; reflexivity.
Qed.

(** Witness of C5: the Fed markets match each other; the Fed market and
    the rain market, at a right angle, do not. *)
Lemma match_markets_ai_threshold_witness :
  (exists ms,
      Ai.match_markets_ai [Demo.fed_a] [Demo.fed_b; Demo.rain_b] = Ok ms
      /\ List.Forall
           (fun m => exists sim,
                In (Ai.kalshi m) [Demo.fed_a]
                /\ In (Ai.polymarket m) [Demo.fed_b; Demo.rain_b]
                /\ pair_similarity (Ai.kalshi m) (Ai.polymarket m) = Ok sim
                /\ Float.ltb Ai.threshold sim = true
                /\ Ai.similarity m = Float.np_round sim 3)
           ms)
  /\ Ai.match_markets_ai [Demo.fed_a] [Demo.rain_b] = Ok [].
Proof.
  split.
  - destruct (Ai.match_markets_ai [Demo.fed_a] [Demo.fed_b; Demo.rain_b])
      as [ms|e] eqn:Hms; [|vm_compute in Hms; discriminate].
    exists ms. split; [reflexivity|].
    exact (proj1 (match_markets_ai_threshold _ _ _ Hms)).
  - destruct (Ai.match_markets_ai [Demo.fed_a] [Demo.rain_b])
      as [ms|e] eqn:Hms; [|vm_compute in Hms; discriminate].
    f_equal. apply (proj2 (match_markets_ai_threshold _ _ _ Hms)).
    intros k p sim [<-|[]] [<-|[]] Hsim.
    vm_compute in Hsim. injection Hsim as <-. now vm_compute.
Defined.

(** Witness of C6: the rows of a cycle come out cheapest first. *)
Lemma displayed_sorted_complete_witness :
  exists out,
    Exact.refresh [Demo.rain_a] [Demo.rain_b'; Demo.rain_b] 100 = Ok out
    /\ ascending Exact.Total_Cost out
    /\ map Exact.Total_Cost out = [Float.ratio 90 100; Float.ratio 95 100].
Proof.
  destruct (Exact.refresh [Demo.rain_a] [Demo.rain_b'; Demo.rain_b] 100)
    as [out|e] eqn:Hout; [|vm_compute in Hout; discriminate].
  exists out. split; [reflexivity|].
  destruct displayed_sorted_complete as (_ & _ & Hcycle & _).
  destruct (Hcycle _ _ _ _ Hout) as (ms & rows & _ & _ & _ & Hasc).
  split; [exact Hasc|].
  vm_compute in Hout. now injection Hout as <-.
Defined.

(** Witness of C7 on the ASCII tables. *)
Lemma normalize_title_idempotent_witness :
  lowercase_stable
  /\ Exact.normalize_title (Demo.text " Will it rain, tomorrow? ")
     = Ok (str "willitraintomorrow")
  /\ Exact.normalize_title (PyStr (str "willitraintomorrow"))
     = Ok (str "willitraintomorrow").
Proof.
  split; [exact demo_lowercase_stable|].
  destruct (normalize_title_idempotent (str " Will it rain, tomorrow? ")
              demo_lowercase_stable) as (s & Hs & -> & Hidem).
  split; [reflexivity|exact Hidem].
Defined.

(** Witness of C8 on the markets of the rain scenario. *)
Lemma price_extractors_total_witness :
  (exists books yes bids best price,
      getitem Demo.rain_a (str "order_books") = Ok books
      /\ getitem books (str "yes") = Ok yes
      /\ getitem yes (str "bids") = Ok bids
      /\ getitem0 bids = Ok best
      /\ getitem best (str "price") = Ok price
      /\ py_float price = Ok (Float.ratio 3 10))
  /\ (exists outcomes before o after price,
        getitem Demo.rain_b (str "outcomes") = Ok outcomes
        /\ iterate outcomes = Ok (before ++ o :: after)
        /\ forallb named_other before = true
        /\ named_no o = true
        /\ getitem o (str "price") = Ok price
        /\ py_float price = Ok (Float.ratio 6 10))
  /\ Exact.get_polymarket_no_price Demo.yes_only = Ok None.
Proof.
  split; [|split].
  - apply (proj1 (proj2 (price_extractors_total Demo.rain_a))).
    now vm_compute.
  - apply (proj1 (proj2 (proj2 (proj2 (price_extractors_total Demo.rain_b))))).
    now vm_compute.
  - pose proof (price_extractors_total Demo.yes_only) as (_ & _ & _ & _ & Hnone).
    apply (Hnone (PyList [Demo.yes_outcome]) [Demo.yes_outcome]);
      now vm_compute.
Defined.

(** Witness of C10 on that record. *)
Lemma extract_polymarket_title_fallback_witness :
  untitled Demo.untitled_fields = true
  /\ Ai.extract_polymarket_title (PyDict Demo.untitled_fields)
     = Ok (PyStr (str "unknown")).
Proof.
  split; [reflexivity|].
  apply (proj1 (proj2 (extract_polymarket_title_fallback Demo.untitled_fields))).
  reflexivity.
Defined.

(** The cached matcher agrees with the matcher as written, here on two
    source-A markets that make it embed each source-B title twice. *)
Example cached_scenario :
  Ai.match_markets_ai_cached [Demo.fed_a; Demo.rain_a] [Demo.fed_b; Demo.rain_b]
  = Ai.match_markets_ai [Demo.fed_a; Demo.rain_a] [Demo.fed_b; Demo.rain_b]
  /\ length (default []
       (match Ai.match_markets_ai [Demo.fed_a; Demo.rain_a]
                [Demo.fed_b; Demo.rain_b] with
        | Ok ms => Some ms
        | Raise _ => None
        end)) = 2%nat.
Proof. split; now vm_compute. Qed.

End Examples.

(** ** Fetching and the whole script *)

Section Fetching.
Context `{PyRuntime} `{Collaborators}.


Lemma sized_py_len (v : pyval) :
  match Ai.py_len v with Ok _ => sized v = true | Raise _ => sized v = false end.
Proof. destruct v; reflexivity. Qed.

Lemma ai_fetch_sized (response : result pyval) :
  exists v, Ai.fetch_kalshi_markets response = Ok v /\ sized v = true.
Proof.
  unfold Ai.fetch_kalshi_markets.
  destruct response as [payload|]; simpl; [|eauto].
  destruct (Ai.dict_get_default payload (str "markets") (PyList []))
    as [markets|]; simpl; [|eauto].
  pose proof (sized_py_len markets) as Hlen.
  destruct (Ai.py_len markets); simpl; eauto.
Qed.


Lemma exact_fetch_returns (response : result pyval) :
  exists v, Exact.fetch_polymarket_markets response = Ok v.
Proof. apply try_except_returns. Qed.

Lemma ai_fetch_poly_sized (response : result pyval) :
  exists v, Ai.fetch_polymarket_markets response = Ok v /\ sized v = true.
Proof. apply ai_fetch_sized. Qed.

Lemma match_one_empty (pm : pyval) (ys : list Exact.matched) :
  Exact.match_one ∅ pm = Ok ys -> ys = [] /\ has_str_title pm = true.
Proof.
  unfold Exact.match_one, has_str_title, Exact.normalize_title.
  destruct (getitem pm (str "title")) as [[| | | |t| |]|]; simpl;
    try discriminate.
  rewrite lookup_empty. now intros [= <-].
Qed.

Lemma match_all_empty (ps : list pyval) :
  match for_each (Exact.match_one ∅) ps with
  | Ok ms => ms = [] /\ forallb has_str_title ps = true
  | Raise _ => forallb has_str_title ps = false
  end.
Proof.
  induction ps as [|pm ps IH]; simpl; [auto|].
  destruct (Exact.match_one ∅ pm) as [ys|] eqn:Hpm; simpl.
  - apply match_one_empty in Hpm as [-> ->]. simpl.
    destruct (for_each (Exact.match_one ∅) ps); simpl; [|exact IH].
    destruct IH as [-> ->]. auto.
  - unfold Exact.match_one, has_str_title, Exact.normalize_title in *.
    destruct (getitem pm (str "title")) as [[| | | |t| |]|]; simpl in *;
      try reflexivity.
    rewrite lookup_empty in Hpm. discriminate.
Qed.

Lemma ai_script_no_kalshi (kalshi_response poly_response : result pyval)
  (stake : Z) :
  Ai.fetch_kalshi_markets kalshi_response = Ok (PyList []) ->
  Ai.script kalshi_response poly_response stake = Ok Ai.No_matches.
Proof.
  intros Hk. unfold Ai.script. rewrite Hk. simpl.
  destruct (ai_fetch_poly_sized poly_response) as (v & -> & _). reflexivity.
Qed.

(** X2: when the Kalshi fetch comes back empty, the embedding dashboard
    shows the "no matches" message whatever the Polymarket request returned.
    The exact dashboard shows it when every Polymarket market has a string
    title, and raises otherwise, although nothing was left to match. *)
Theorem kalshi_outage (kalshi_response poly_response : result pyval)
  (stake : Z) :
  (Ai.fetch_kalshi_markets kalshi_response = Ok (PyList []) ->
   Ai.script kalshi_response poly_response stake = Ok Ai.No_matches)
  /\ (forall ps,
        Exact.fetch_kalshi_markets kalshi_response = Ok (PyList []) ->
        Exact.fetch_polymarket_markets poly_response = Ok (PyList ps) ->
        if forallb has_str_title ps
        then Exact.cycle kalshi_response poly_response stake
             = Ok Exact.No_matches
        else exists e,
            Exact.cycle kalshi_response poly_response stake = Raise e).
Proof.
  split.
  - apply ai_script_no_kalshi.
  - intros ps Hk Hp. unfold Exact.cycle. rewrite Hk, Hp. simpl.
    unfold Exact.match_markets_on. simpl.
    pose proof (match_all_empty ps) as Hps.
    destruct (for_each (Exact.match_one ∅) ps) as [ms|e]; simpl.
    + destruct Hps as [-> ->]. reflexivity.
    + rewrite Hps. eauto.
Qed.

(** X3: a payload whose [markets] is not iterable (null, a number, a
    boolean) makes the exact dashboard raise from the iteration; the
    embedding dashboard treats it as no markets and shows the message. *)
Theorem unsized_markets (payload v : pyval) (e : exn)
  (poly_response : result pyval) (stake : Z) :
  getitem payload (str "markets") = Ok v ->
  iterate v = Raise e ->
  Exact.cycle (Ok payload) poly_response stake = Raise e
  /\ Ai.script (Ok payload) poly_response stake = Ok Ai.No_matches.
Proof.
  intros Hv He. split.
  - unfold Exact.cycle, Exact.fetch_kalshi_markets. simpl. rewrite Hv. simpl.
    destruct (exact_fetch_returns poly_response) as [p ->]. simpl.
    unfold Exact.match_markets_on. now rewrite He.
  - apply ai_script_no_kalshi.
    unfold Ai.fetch_kalshi_markets. simpl.
    destruct payload as [| | | | | |d]; try discriminate. simpl in *.
    destruct (dict_get d (str "markets")) as [x|]; [|discriminate].
    injection Hv as ->. simpl. now destruct v.
Qed.

End Fetching.

(** ** When the matchers return, and what they emit *)

Section MatcherDomains.
Context `{PyRuntime} `{Collaborators}.

Lemma for_each_ok_all {A B : Type} (f : A -> result (list B)) (l : list A)
  (zs : list B) :
  for_each f l = Ok zs -> forall x, In x l -> exists ys, f x = Ok ys.
Proof.
  revert zs. induction l as [|x l IH]; intros zs Hzs y Hy; [destruct Hy|].
  apply for_each_cons_ok in Hzs as (ys & ws & Hx & Hl & _).
  destruct Hy as [<-|Hy]; [eauto|]. now apply (IH ws).
Qed.

Lemma title_key_str (m : pyval) (key : pystr) :
  title_key m = Ok key -> has_str_title m = true.
Proof.
  unfold title_key, has_str_title, Exact.normalize_title.
  destruct (getitem m (str "title")) as [[| | | |t| |]|]; simpl;
    try discriminate. reflexivity.
Qed.

Lemma kalshi_lookup_from_titled (kalshi : list pyval)
  (acc lookup : gmap pystr pyval) :
  Exact.kalshi_lookup_from acc kalshi = Ok lookup ->
  forallb has_str_title kalshi = true.
Proof.
  revert acc. induction kalshi as [|m rest IH]; intros acc Hl; simpl in *;
    [reflexivity|].
  destruct (title_key m) as [key|] eqn:Hkey; unfold title_key in Hkey.
  - rewrite (title_key_str m key Hkey). simpl.
    destruct (getitem m (str "title")) as [title|]; simpl in *; [|discriminate].
    rewrite Hkey in Hl. simpl in Hl. now apply (IH _ Hl).
  - destruct (getitem m (str "title")) as [title|]; simpl in *; [|discriminate].
    rewrite Hkey in Hl. discriminate.
Qed.

Lemma match_one_titled (lookup : gmap pystr pyval) (pm : pyval)
  (ys : list Exact.matched) :
  Exact.match_one lookup pm = Ok ys -> has_str_title pm = true.
Proof.
  unfold Exact.match_one. intros Hys.
  destruct (title_key pm) as [key|] eqn:Hkey; [now apply (title_key_str pm key)|].
  unfold title_key in Hkey.
  destruct (getitem pm (str "title")) as [title|]; simpl in *; [|discriminate].
  rewrite Hkey in Hys. discriminate.
Qed.

(** X4: the exact matcher returns exactly when every market of both lists
    has a title that is a string; on any other input it raises. *)
Theorem match_markets_domain (kalshi polymarkets : list pyval) :
  (exists ms, Exact.match_markets kalshi polymarkets = Ok ms)
  <-> forallb has_str_title kalshi && forallb has_str_title polymarkets = true.
Proof.
  rewrite andb_true_iff. split.
  - intros [ms Hms]. apply match_markets_ok in Hms as (lookup & Hl & Hms).
    split; [exact (kalshi_lookup_from_titled _ _ _ Hl)|].
    apply forallb_forall. intros pm Hpm.
    destruct (for_each_ok_all _ _ _ Hms pm Hpm) as [ys Hys].
    exact (match_one_titled _ _ _ Hys).
  - intros [Ha Hb]. now apply match_markets_returns.
Qed.

Lemma match_one_shape (lookup : gmap pystr pyval) (pm : pyval)
  (ys : list Exact.matched) :
  Exact.match_one lookup pm = Ok ys ->
  ys = []
  \/ exists title key k,
      getitem pm (str "title") = Ok title
      /\ title_key pm = Ok key /\ lookup !! key = Some k
      /\ ys = [ {| Exact.name := title; Exact.kalshi := k;
                   Exact.polymarket := pm |} ].
Proof.
  unfold Exact.match_one, title_key.
  destruct (getitem pm (str "title")) as [title|]; simpl; [|discriminate].
  destruct (Exact.normalize_title title) as [key|]; simpl; [|discriminate].
  destruct (lookup !! key) as [k|] eqn:Hk; intros [= <-]; [|now left].
  right. exists title, key, k. auto.
Qed.

(** X5: the pairs of the exact matcher come out in the order of the
    source-B list, each source-B market at most once; a pair is named after
    its source-B title, and its source-A side is a market of the source-A
    list. *)
Theorem match_markets_order (kalshi polymarkets : list pyval)
  (ms : list Exact.matched) :
  Exact.match_markets kalshi polymarkets = Ok ms ->
  sublist (map Exact.polymarket ms) polymarkets
  /\ List.Forall
       (fun m =>
          getitem (Exact.polymarket m) (str "title") = Ok (Exact.name m)
          /\ In (Exact.kalshi m) kalshi)
       ms.
Proof.
  intros Hms. apply match_markets_ok in Hms as (lookup & Hl & Hms). split.
  - clear Hl. revert ms Hms.
    induction polymarkets as [|pm ps IH]; intros ms Hms.
    + injection Hms as <-. constructor.
    + apply for_each_cons_ok in Hms as (ys & ws & Hpm & Hps & ->).
      rewrite map_app.
      destruct (match_one_shape _ _ _ Hpm)
        as [->|(title & key & k & _ & _ & _ & ->)]; simpl.
      * apply sublist_cons. now apply IH.
      * apply sublist_skip. now apply IH.
  - eapply for_each_Forall; [|exact Hms]. intros pm ys _ Hys.
    destruct (match_one_shape _ _ _ Hys)
      as [->|(title & key & k & Ht & _ & Hk & ->)]; [constructor|].
    constructor; [|constructor]. simpl. split; [exact Ht|].
    rewrite (kalshi_lookup_spec _ _ key Hl) in Hk.
    now apply (last_with_key_title key kalshi k).
Qed.

Lemma compare_one_ok (k k_title : pyval) (k_embed : list float) (p : pyval) :
  (exists ys, Ai.compare_one k k_title k_embed p = Ok ys)
  <-> exists p_title,
      Ai.extract_polymarket_title p = Ok p_title
      /\ sized_seq k_title && sized_seq p_title = true.
Proof.
  unfold Ai.compare_one.
  destruct (Ai.extract_polymarket_title p) as [p_title|]; simpl.
  2:{ split; [intros [ys Hys]; discriminate|intros (? & Hp & _); discriminate]. }
  destruct (get_embedding_returns p_title) as [v ->]. simpl.
  split.
  - intros [ys Hys]. exists p_title. split; [reflexivity|].
    destruct k_title, p_title; simpl in *; try discriminate; reflexivity.
  - intros (t & [= <-] & Hs). apply andb_true_iff in Hs as [Hk Hp].
    destruct k_title; try discriminate; destruct p_title; try discriminate;
      simpl; destruct (Float.ltb Ai.threshold _); eauto.
Qed.

Lemma comparable_compare_one (k k_title : pyval) (k_embed : list float)
  (p : pyval) :
  getitem k (str "title") = Ok k_title ->
  (exists ys, Ai.compare_one k k_title k_embed p = Ok ys)
  <-> comparable k p = true.
Proof.
  intros Ht. rewrite compare_one_ok. unfold comparable. rewrite Ht.
  destruct (Ai.extract_polymarket_title p) as [p_title|]; split.
  - now intros (t & [= <-] & Hs).
  - intros Hs. eauto.
  - intros (t & Hp & _). discriminate.
  - discriminate.
Qed.

Lemma match_kalshi_ok (polymarkets : list pyval) (k : pyval) :
  (exists ms, Ai.match_kalshi polymarkets k = Ok ms)
  <-> has_title k && forallb (comparable k) polymarkets = true.
Proof.
  unfold Ai.match_kalshi, has_title.
  destruct (getitem k (str "title")) as [k_title|] eqn:Ht; simpl.
  2:{ split; [intros [ms Hms]; discriminate|discriminate]. }
  destruct (get_embedding_returns k_title) as [k_embed ->]. simpl.
  rewrite forallb_forall. split.
  - intros [ms Hms] p Hp.
    apply (comparable_compare_one k k_title k_embed p Ht).
    exact (for_each_ok_all _ _ _ Hms p Hp).
  - intros Hall. apply for_each_returns. intros p Hp.
    apply (comparable_compare_one k k_title k_embed p Ht). now apply Hall.
Qed.

(** X6: the embedding matcher returns exactly when every source-A market
    has a title and, for every combination with a source-B market, the
    source-B market is a record and both titles are strings or lists.  With
    no source-B market a title of any value is enough; with no source-A
    market the source-B list is not looked at. *)
Theorem match_markets_ai_domain (kalshi polymarkets : list pyval) :
  (exists ms, Ai.match_markets_ai kalshi polymarkets = Ok ms)
  <-> forallb (fun k => has_title k && forallb (comparable k) polymarkets)
        kalshi = true.
Proof.
  unfold Ai.match_markets_ai. rewrite forallb_forall. split.
  - intros [ms Hms] k Hk. apply match_kalshi_ok.
    exact (for_each_ok_all _ _ _ Hms k Hk).
  - intros Hall. apply for_each_returns. intros k Hk.
    apply match_kalshi_ok. now apply Hall.
Qed.

Lemma compare_one_emitted (k k_title : pyval) (k_embed : list float)
  (p : pyval) (ys : list Ai.matched) :
  getitem k (str "title") = Ok k_title ->
  Ai.get_embedding k_title = Ok k_embed ->
  Ai.compare_one k k_title k_embed p = Ok ys ->
  ys = emitted k p.
Proof.
  intros Ht He Hys.
  destruct (compare_one_emits _ _ _ _ _ Ht He Hys) as (sim & Hsim & ->).
  unfold emitted. now rewrite Ht, Hsim.
Qed.

(** X7: what the embedding matcher returns is the list of the combinations
    above the threshold, source-A market by source-A market and, for each,
    in the order of the source-B list; a source-B market is paired with
    every source-A market that is similar enough, so that there can be up
    to [|A| * |B|] pairs. *)
Theorem match_markets_ai_cross_product (kalshi polymarkets : list pyval)
  (ms : list Ai.matched) :
  Ai.match_markets_ai kalshi polymarkets = Ok ms ->
  ms = List.flat_map (fun k => List.flat_map (emitted k) polymarkets) kalshi
  /\ (length ms <= length kalshi * length polymarkets)%nat.
Proof.
  intros Hms. split.
  - eapply for_each_flat_map; [|exact Hms].
    intros k ys. unfold Ai.match_kalshi.
    destruct (getitem k (str "title")) as [k_title|] eqn:Ht; simpl;
      [|discriminate].
    destruct (Ai.get_embedding k_title) as [k_embed|] eqn:He; simpl;
      [|discriminate].
    apply for_each_flat_map. intros p zs.
    now apply compare_one_emitted.
  - eapply for_each_length_mul; [|exact Hms].
    intros k ys. unfold Ai.match_kalshi.
    destruct (getitem k (str "title")) as [k_title|] eqn:Ht; simpl;
      [|discriminate].
    destruct (Ai.get_embedding k_title) as [k_embed|] eqn:He; simpl;
      [|discriminate].
    intros Hys.
    pose proof (for_each_length_mul (Ai.compare_one k k_title k_embed) 1
                  polymarkets ys) as Hlen.
    rewrite Nat.mul_1_r in Hlen. apply Hlen; [|exact Hys].
    intros p zs Hzs. rewrite (compare_one_emitted _ _ _ _ _ Ht He Hzs).
    unfold emitted. rewrite Ht.
    destruct (pair_similarity k p); [|simpl; lia].
    destruct (Float.ltb Ai.threshold _); simpl; lia.
Qed.

End MatcherDomains.

(** ** Edge behaviour of normalization, extraction and embedding *)

Section Edges.
Context `{PyRuntime} `{Collaborators}.

Lemma lstrip_length (s : pystr) : (length (lstrip s) <= length s)%nat.
Proof.
  induction s as [|c s IH]; simpl; [lia|].
  destruct (isspace c); simpl; lia.
Qed.

Lemma lstrip_fixed_head (s : pystr) (c : N) (t : pystr) :
  lstrip s = s -> s = c :: t -> isspace c = false.
Proof.
  intros Hs ->. simpl in Hs. destruct (isspace c); [|reflexivity].
  pose proof (lstrip_length t) as Hlen. rewrite Hs in Hlen. simpl in Hlen. lia.
Qed.

(** X8: only a string can be normalized, any other title raises
    [AttributeError].  A normalized title holds no [?], no comma and no
    space, and neither begins nor ends with white space, whatever the
    lowercase tables are. *)
Theorem normalize_title_shape (title : pyval) :
  match Exact.normalize_title title with
  | Ok s =>
      (exists t, title = PyStr t)
      /\ List.Forall (fun c => c <> 0x3F /\ c <> 0x2C /\ c <> 0x20)%N s
      /\ (forall c t, s = c :: t -> isspace c = false)
      /\ (forall c t, s = t ++ [c] -> isspace c = false)
  | Raise e => e = AttributeError /\ forall t, title <> PyStr t
  end.
Proof.
  destruct title as [| | | |t| |]; simpl; try (split; [reflexivity|discriminate]).
  split; [eauto|].
  pose proof (strip_stripped
                (remove_char 0x20 (remove_char 0x2C (remove_char 0x3F (lower t)))))
    as [Hl Hr].
  split; [|split].
  - apply strip_Forall.
    assert (Hq : List.Forall (fun c => c <> 0x3F%N) (remove_char 0x3F (lower t)))
      by apply remove_char_absent.
    assert (Hc : List.Forall (fun c => c <> 0x3F /\ c <> 0x2C)%N
                   (remove_char 0x2C (remove_char 0x3F (lower t)))).
    { apply List.Forall_and; [now apply remove_char_Forall|].
      apply remove_char_absent. }
    apply List.Forall_and; [|apply List.Forall_and].
    + apply remove_char_Forall. revert Hc. apply List.Forall_impl. tauto.
    + apply remove_char_Forall. revert Hc. apply List.Forall_impl. tauto.
    + apply remove_char_absent.
  - intros c u. now apply lstrip_fixed_head.
  - intros c u Hs. apply (lstrip_fixed_head _ c (rev u) Hr).
    rewrite Hs, rev_app_distr. reflexivity.
Qed.

Lemma scan_outcomes_skip (before rest : list pyval) :
  forallb named_other before = true ->
  Exact.scan_outcomes (before ++ rest) = Exact.scan_outcomes rest.
Proof.
  induction before as [|b before IH]; simpl; [reflexivity|].
  intros Hb. apply andb_true_iff in Hb as [Hb Hbefore].
  unfold named_other, outcome_name in Hb.
  destruct (getitem b (str "name")) as [nm|]; simpl in *; [|discriminate].
  destruct (lower_method nm) as [l|]; simpl in *; [|discriminate].
  destruct (pystr_eqb l (str "no")); [discriminate|]. now apply IH.
Qed.

(** X9: the scan of the outcome list stops at the first entry that is not
    a well-formed outcome of another name.  When that entry has no usable
    name, or is named "no" without a price that converts to a float, the
    extractor returns [None], whatever outcomes follow it. *)
Theorem no_price_stops_at_first (market outcomes : pyval)
  (before : list pyval) (o : pyval) (after : list pyval) :
  getitem market (str "outcomes") = Ok outcomes ->
  iterate outcomes = Ok (before ++ o :: after) ->
  forallb named_other before = true ->
  malformed o || named_no o && unpriced o = true ->
  Exact.get_polymarket_no_price market = Ok None.
Proof.
  intros Hout Hiter Hbefore Ho. unfold Exact.get_polymarket_no_price.
  rewrite Hout. simpl. rewrite Hiter. simpl.
  rewrite (scan_outcomes_skip _ _ Hbefore). simpl.
  unfold malformed, named_no, unpriced, outcome_name in Ho.
  destruct (getitem o (str "name")) as [nm|]; simpl in *; [|reflexivity].
  destruct (lower_method nm) as [l|]; simpl in *; [|reflexivity].
  destruct (pystr_eqb l (str "no")); simpl in *; [|discriminate].
  destruct (getitem o (str "price")) as [price|]; simpl in *; [|reflexivity].
  destruct (py_float price); simpl in *; [discriminate|reflexivity].
Qed.

(** X10: a source-A market whose list of bids is empty has no YES bid, and
    a pair built on it gives no row, whatever its source-B side and the
    stake. *)
Theorem empty_bids_no_row (pair : Exact.matched) (stake : Z)
  (books yes : pyval) :
  getitem (Exact.kalshi pair) (str "order_books") = Ok books ->
  getitem books (str "yes") = Ok yes ->
  getitem yes (str "bids") = Ok (PyList []) ->
  Exact.get_kalshi_yes_bid (Exact.kalshi pair) = Ok None
  /\ Exact.evaluate pair stake = Ok [].
Proof.
  intros Hb Hy Hbids.
  assert (Hnone : Exact.get_kalshi_yes_bid (Exact.kalshi pair) = Ok None).
  { unfold Exact.get_kalshi_yes_bid. rewrite Hb. simpl. rewrite Hy. simpl.
    rewrite Hbids. reflexivity. }
  split; [exact Hnone|].
  destruct (proj2 (price_extractors_total_aux (Exact.polymarket pair)))
    as [pb Hpb].
  eapply evaluate_skip; eauto.
Qed.

Lemma get_embedding_failed (text : pyval) (e : exn) :
  openai_embedding text = Raise e -> Ai.get_embedding text = Ok Ai.zeros.
Proof. intros He. unfold Ai.get_embedding. now rewrite He. Qed.

(** X11: when the embedding request for the title of a source-A market
    fails, the market is compared as the zero vector; if the cosine
    similarity of the zero vector with any vector is not above the
    threshold, as with sklearn's, that market is in no pair. *)
Theorem failed_embedding_no_pair (polymarkets : list pyval) (k k_title : pyval)
  (e : exn) (ms : list Ai.matched) :
  (forall v, Float.ltb Ai.threshold (cosine_similarity Ai.zeros v) = false) ->
  getitem k (str "title") = Ok k_title ->
  openai_embedding k_title = Raise e ->
  Ai.match_kalshi polymarkets k = Ok ms ->
  ms = [].
Proof.
  intros Hcos Ht He. unfold Ai.match_kalshi. rewrite Ht. simpl.
  rewrite (get_embedding_failed _ _ He). simpl. intros Hms.
  assert (Hnone : forall p ys,
             Ai.compare_one k k_title Ai.zeros p = Ok ys -> ys = (fun _ => []) p).
  { intros p ys. unfold Ai.compare_one. intros Hys.
    repeat step_bind; try discriminate.
    rewrite Hcos in Hys. now injection Hys as <-. }
  rewrite (for_each_flat_map _ _ _ _ Hnone Hms).
  clear. induction polymarkets; [reflexivity|assumption].
Qed.

End Edges.

(** ** The zero vector under the cosine of the examples *)

Section ZeroVector.

Lemma zero_or_nan_mul (x y : float) :
  Float.is_zero x = true -> zero_or_nan (Float.mul x y) = true.
Proof. destruct x; try discriminate. intros _. now destruct y. Qed.

Lemma zero_or_nan_add (x y : float) :
  zero_or_nan x = true -> zero_or_nan y = true ->
  zero_or_nan (Float.add x y) = true.
Proof.
  destruct x as [[]|[]| |]; try discriminate;
    destruct y as [[]|[]| |]; try discriminate; reflexivity.
Qed.

Lemma dot_zeros (zs w : list float) (acc : float) :
  List.Forall (fun z => Float.is_zero z = true) zs ->
  zero_or_nan acc = true ->
  zero_or_nan (fold_left Float.add (zip_with Float.mul zs w) acc) = true.
Proof.
  intros Hzs. revert w acc.
  induction Hzs as [|z zs Hz Hzs IH]; intros w acc Hacc; [exact Hacc|].
  destruct w as [|y w]; [exact Hacc|]. simpl. apply IH.
  apply zero_or_nan_add; [exact Hacc|]. now apply zero_or_nan_mul.
Qed.

Lemma zeros_all_zero : List.Forall (fun z => Float.is_zero z = true) Ai.zeros.
Proof. unfold Ai.zeros. apply List.Forall_forall. intros z Hz.
  apply repeat_spec in Hz. now subst. Qed.

Lemma unit_vector_zeros : Demo.unit_vector Ai.zeros = Ai.zeros.
Proof. now vm_compute. Qed.

Lemma demo_cosine_zeros (v : list float) :
  Float.ltb Ai.threshold (Demo.cosine Ai.zeros v) = false.
Proof.
  unfold Demo.cosine, Demo.dot. rewrite unit_vector_zeros.
  pose proof (dot_zeros Ai.zeros (Demo.unit_vector v) (S754_zero false)
                zeros_all_zero eq_refl) as Hz.
  destruct (fold_left Float.add _ _) as [[]|[]| |]; try discriminate;
    reflexivity.
Qed.

End ZeroVector.

(** ** Worked examples of the script and of the edge cases *)

Section ScriptExamples.
#[local] Existing Instance Demo.runtime.
#[local] Existing Instance Demo.collaborators.

(** Witness of X2: the Kalshi request fails, Polymarket returns a market
    that keeps its title under [question]. *)
Lemma kalshi_outage_witness :
  Ai.script (Raise ValueError)
    (Ok (Demo.payload (PyList [Demo.rain_question]))) 100
  = Ok Ai.No_matches
  /\ exists e,
      Exact.cycle (Raise ValueError)
        (Ok (Demo.payload (PyList [Demo.rain_question]))) 100
      = Raise e.
Proof.
  destruct (kalshi_outage (Raise ValueError)
              (Ok (Demo.payload (PyList [Demo.rain_question]))) 100)
    as [Hai Hexact].
  split; [apply Hai; reflexivity|].
  exact (Hexact [Demo.rain_question] eq_refl eq_refl).
Defined.

(** Witness of X3: the payload [{"markets": null}]. *)
Lemma unsized_markets_witness :
  Exact.cycle (Ok (Demo.payload PyNone)) (Raise ValueError) 100
  = Raise TypeError
  /\ Ai.script (Ok (Demo.payload PyNone)) (Raise ValueError) 100
     = Ok Ai.No_matches.
Proof.
  apply (unsized_markets (Demo.payload PyNone) PyNone TypeError); reflexivity.
Defined.

(** Witness of X4: a source-B market without [title] is outside the domain
    of the exact matcher. *)
Lemma match_markets_domain_witness :
  (exists ms, Exact.match_markets [Demo.rain_a] [Demo.rain_b] = Ok ms)
  /\ ~ exists ms,
        Exact.match_markets [Demo.rain_a] [Demo.rain_question] = Ok ms.
Proof.
  split.
  - apply match_markets_domain. reflexivity.
  - intros Hms. apply match_markets_domain in Hms. discriminate Hms.
Defined.

(** Witness of X5 on the lists of the rain scenario. *)
Lemma match_markets_order_witness :
  exists ms,
    Exact.match_markets [Demo.rain_a] [Demo.rain_b; Demo.yes_only; Demo.rain_b']
    = Ok ms
    /\ map Exact.polymarket ms = [Demo.rain_b; Demo.yes_only; Demo.rain_b']
    /\ sublist (map Exact.polymarket ms)
         [Demo.rain_b; Demo.yes_only; Demo.rain_b'].
Proof.
  destruct (Exact.match_markets [Demo.rain_a]
              [Demo.rain_b; Demo.yes_only; Demo.rain_b'])
    as [ms|e] eqn:Hms; [|vm_compute in Hms; discriminate].
  exists ms. split; [reflexivity|].
  split; [|exact (proj1 (match_markets_order _ _ _ Hms))].
  vm_compute in Hms. now injection Hms as <-.
Defined.

(** Witness of X6: a title that is a list is accepted, a source-A market
    without a title is not. *)
Lemma match_markets_ai_domain_witness :
  (exists ms,
      Ai.match_markets_ai [Demo.rain_a; Demo.listed_a] [Demo.rain_question]
      = Ok ms)
  /\ ~ exists ms, Ai.match_markets_ai [Demo.untitled_a] [] = Ok ms.
Proof.
  split.
  - apply match_markets_ai_domain. reflexivity.
  - intros Hms. apply match_markets_ai_domain in Hms. discriminate Hms.
Defined.

(** Witness of X7 on two markets of each source. *)
Lemma match_markets_ai_cross_product_witness :
  exists ms,
    Ai.match_markets_ai [Demo.fed_a; Demo.rain_a] [Demo.fed_b; Demo.rain_b]
    = Ok ms
    /\ ms = List.flat_map
              (fun k => List.flat_map (emitted k) [Demo.fed_b; Demo.rain_b])
              [Demo.fed_a; Demo.rain_a]
    /\ length ms = 2%nat.
Proof.
  destruct (Ai.match_markets_ai [Demo.fed_a; Demo.rain_a]
              [Demo.fed_b; Demo.rain_b])
    as [ms|e] eqn:Hms; [|vm_compute in Hms; discriminate].
  exists ms. split; [reflexivity|].
  split; [exact (proj1 (match_markets_ai_cross_product _ _ _ Hms))|].
  vm_compute in Hms. now injection Hms as <-.
Defined.

(** Witness of X9: a nameless entry before the No outcome. *)
Lemma no_price_stops_at_first_witness :
  Exact.get_polymarket_no_price Demo.nameless_first = Ok None.
Proof.
  apply (no_price_stops_at_first Demo.nameless_first
           (PyList [Demo.market [("price", PyFloat (Float.ratio 4 10))]%string;
                    Demo.market [("name", Demo.text "No");
                                 ("price", PyFloat (Float.ratio 6 10))]%string])
           []
           (Demo.market [("price", PyFloat (Float.ratio 4 10))]%string)
           [Demo.market [("name", Demo.text "No");
                         ("price", PyFloat (Float.ratio 6 10))]%string]);
    reflexivity.
Defined.

(** Witness of X10: an order book without bids. *)
Lemma empty_bids_no_row_witness :
  Exact.get_kalshi_yes_bid Demo.no_bids_a = Ok None
  /\ Exact.evaluate Demo.no_bids_pair 100 = Ok [].
Proof.
  apply (empty_bids_no_row Demo.no_bids_pair 100
           (Demo.market [("yes", Demo.market [("bids", PyList [])])]%string)
           (Demo.market [("bids", PyList [])]%string));
    reflexivity.
Defined.

(** Witness of X11: the stub provider rejects a title that is a list. *)
Lemma failed_embedding_no_pair_witness :
  Ai.match_kalshi [Demo.rain_b; Demo.fed_b] Demo.listed_a = Ok [].
Proof.
  destruct (Ai.match_kalshi [Demo.rain_b; Demo.fed_b] Demo.listed_a)
    as [ms|e] eqn:Hms; [|vm_compute in Hms; discriminate].
  f_equal.
  apply (failed_embedding_no_pair (H0 := Demo.collaborators)
           [Demo.rain_b; Demo.fed_b] Demo.listed_a
           (PyList [Demo.text "Will it rain tomorrow?"]) TypeError ms
           demo_cosine_zeros eq_refl eq_refl Hms).
Defined.

End ScriptExamples.

(** ** What the page shows *)

Section Display.
Context `{PyRuntime} `{Collaborators}.

Lemma match_markets_on_lists (kalshi polymarkets : list pyval) :
  Exact.match_markets_on (PyList kalshi) (PyList polymarkets)
  = Exact.match_markets kalshi polymarkets.
Proof. reflexivity. Qed.

Lemma match_markets_ai_on_lists (kalshi polymarkets : list pyval) :
  Ai.match_markets_ai_on (PyList kalshi) (PyList polymarkets)
  = Ai.match_markets_ai kalshi polymarkets.
Proof. reflexivity. Qed.

(** X12: a cycle of the exact dashboard that returns shows either the
    message, exactly when the evaluation produced no row, or a table that
    is not empty, holds the rows of the evaluation and is in ascending order
    of total cost; an empty table is never shown. *)
Theorem cycle_view (kalshi_response poly_response : result pyval)
  (stake : Z) (v : Exact.view) :
  Exact.cycle kalshi_response poly_response stake = Ok v ->
  exists kalshi_data poly_data ms rows,
    Exact.fetch_kalshi_markets kalshi_response = Ok kalshi_data
    /\ Exact.fetch_polymarket_markets poly_response = Ok poly_data
    /\ Exact.match_markets_on kalshi_data poly_data = Ok ms
    /\ Exact.evaluate_all ms stake = Ok rows
    /\ match v with
       | Exact.No_matches => rows = []
       | Exact.Table df =>
           df <> [] /\ Permutation rows df /\ ascending Exact.Total_Cost df
       end.
Proof.
  unfold Exact.cycle. intros Hv.
  destruct (Exact.fetch_kalshi_markets kalshi_response) as [kalshi_data|]
    eqn:Hk; simpl in Hv; [|discriminate].
  destruct (Exact.fetch_polymarket_markets poly_response) as [poly_data|]
    eqn:Hp; simpl in Hv; [|discriminate].
  destruct (Exact.match_markets_on kalshi_data poly_data) as [ms|] eqn:Hms;
    simpl in Hv; [|discriminate].
  destruct (Exact.evaluate_all ms stake) as [rows|] eqn:Hrows;
    simpl in Hv; [|discriminate].
  injection Hv as <-. exists kalshi_data, poly_data, ms, rows.
  split; [reflexivity|]. split; [reflexivity|].
  split; [exact Hms|]. split; [exact Hrows|].
  destruct rows as [|r rows]; [reflexivity|].
  cbv [Exact.show Exact.sort_values].
  pose proof (sort_values_by_perm Exact.Total_Cost (r :: rows)) as Hperm.
  split; [|split].
  - intros Hnil. rewrite Hnil in Hperm. apply Permutation_sym in Hperm.
    now apply Permutation_nil_cons in Hperm.
  - exact Hperm.
  - apply (sort_values_by_ascending Exact.Total_Cost).
Qed.

End Display.

Section DisplayExamples.
#[local] Existing Instance Demo.runtime.

(** Witness of X12: the rain scenario from the payloads to the table. *)
Lemma cycle_view_witness :
  exists df,
    Exact.cycle (Ok (Demo.payload (PyList [Demo.rain_a])))
      (Ok (Demo.payload (PyList [Demo.rain_b'; Demo.rain_b]))) 100
    = Ok (Exact.Table df)
    /\ map Exact.Total_Cost df = [Float.ratio 90 100; Float.ratio 95 100]
    /\ ascending Exact.Total_Cost df.
Proof.
  destruct (Exact.cycle (Ok (Demo.payload (PyList [Demo.rain_a])))
              (Ok (Demo.payload (PyList [Demo.rain_b'; Demo.rain_b]))) 100)
    as [[df|]|e] eqn:Hv; try (vm_compute in Hv; discriminate).
  exists df. split; [reflexivity|].
  destruct (cycle_view _ _ _ _ Hv) as (_ & _ & _ & _ & _ & _ & _ & _ & _ & _ & Hasc).
  split; [|exact Hasc].
  vm_compute in Hv. now injection Hv as <-.
Defined.

End DisplayExamples.
